(** * InternetMonitor agent: a shallow embedding of [agent/main.go]

    The agent answers [/status] requests with the outcome of a TCP
    connectivity probe and the last known download speed, and starts a
    guarded, rate-limited download measurement in the background.

    Conventions of the embedding:
    - [float64] values are Rocq's primitive binary64 floats, so [==], [!=],
      [/] and [*] are the IEEE operations the Go code executes;
    - [time.Time] and [time.Duration] are integers counting nanoseconds;
      a [Duration] is an [int64], and [Time.Sub] saturates as in Go;
    - every call that leaves the process (clock, network, file system,
      database) takes its result from an explicit environment argument;
    - the package-level variables form the record [State]; each critical
      section of the code is one function on [State]. *)

From Stdlib Require Import ZArith List Bool String Lia.
From Stdlib Require Import Floats.
Import ListNotations.

Local Open Scope Z_scope.

(** ** Time *)

Module GoTime.

(** Nanoseconds since the zero [time.Time] (January 1, year 1, UTC). *)
Definition Time := Z.
(** [time.Duration]: a signed 64-bit count of nanoseconds. *)
Definition Duration := Z.

Definition zeroTime : Time := 0.

Definition minDuration : Duration := - 2 ^ 63.
Definition maxDuration : Duration := 2 ^ 63 - 1.

Definition Second : Duration := 1000000000.

(** [t.Sub(u)]: the difference, clamped to the range of [Duration]. *)
Definition Sub (t u : Time) : Duration :=
  let d := t - u in
  if d <? minDuration then minDuration
  else if maxDuration <? d then maxDuration
  else d.

(** [time.Since(t)] evaluated when the clock reads [now]. *)
Definition Since (now t : Time) : Duration := Sub now t.

(** [float64(x)] for an [int64] [x]. *)
Definition float64_of_int64 (x : Z) : float :=
  if x =? - 2 ^ 63 then (-9223372036854775808)%float
  else if x <? 0 then PrimFloat.opp (PrimFloat.of_uint63 (Uint63.of_Z (- x)))
  else PrimFloat.of_uint63 (Uint63.of_Z x).

(** [d.Seconds()]: whole seconds plus the fractional part, as the
    standard library computes it (integer division truncates). *)
Definition Seconds (d : Duration) : float :=
  let sec := Z.quot d Second in
  let nsec := Z.rem d Second in
  (float64_of_int64 sec + float64_of_int64 nsec / 1000000000)%float.

End GoTime.
Import GoTime.

(** [int64] wrap-around, for the product [n*8]. *)
Definition wrap64 (z : Z) : Z := (z + 2 ^ 63) mod 2 ^ 64 - 2 ^ 63.

Definition int64_mul (a b : Z) : Z := wrap64 (a * b).

(** [a != b] on [float64]. *)
Definition fneq (a b : float) : bool := negb (PrimFloat.eqb a b).

(** ** Data *)

Definition Version : string := "1.1.0".

Record Status := mkStatus {
  Online : bool;
  LatencyMs : float;
  Timestamp : Time;
  DownloadSpeedMbps : float;
  StatusVersion : string
}.

Record Config := mkConfig {
  LatencyThresholdMs : float;
  DegradedSpeedMbps : float
}.

(** One row of the table [history(ts, online, latency, speed, version)]. *)
Record HistoryRow := mkRow {
  ts : Time;
  online : bool;
  latency : float;
  speed : float;
  version : string
}.

(** What the process emits besides its state: the lines it logs and the
    calls it makes on the database handle. *)
Inductive Event :=
| LogParseFailed
| LogStarting
| LogDownloadFailed
| LogReadFailed
| LogDownloadSpeed (mbps : float) (n : Z) (duration : float)
| LogSkipping
| LogPrepareFailed
| LogInsertFailed
| DbPrepare
| DbExec (row : HistoryRow).

(** The package-level variables, the table behind [db], and the events
    emitted so far (oldest first). *)
Record State := mkState {
  lastSpeed : float;
  lastRecordedSpeed : float;
  measuring : bool;
  lastMeasurementTime : Time;
  history : list HistoryRow;
  events : list Event
}.

Definition measurementCooldown : Duration := 30 * Second.

(** The state at process start: Go zero values and an empty table. *)
Definition initState : State :=
  mkState 0%float 0%float false zeroTime [] [].

Definition set_lastSpeed (v : float) (s : State) : State :=
  mkState v (lastRecordedSpeed s) (measuring s) (lastMeasurementTime s)
          (history s) (events s).

Definition set_lastRecordedSpeed (v : float) (s : State) : State :=
  mkState (lastSpeed s) v (measuring s) (lastMeasurementTime s)
          (history s) (events s).

Definition set_measuring (b : bool) (s : State) : State :=
  mkState (lastSpeed s) (lastRecordedSpeed s) b (lastMeasurementTime s)
          (history s) (events s).

Definition set_lastMeasurementTime (t : Time) (s : State) : State :=
  mkState (lastSpeed s) (lastRecordedSpeed s) (measuring s) t
          (history s) (events s).

Definition insert_row (r : HistoryRow) (s : State) : State :=
  mkState (lastSpeed s) (lastRecordedSpeed s) (measuring s)
          (lastMeasurementTime s) (history s ++ [r]) (events s).

Definition emit (e : Event) (s : State) : State :=
  mkState (lastSpeed s) (lastRecordedSpeed s) (measuring s)
          (lastMeasurementTime s) (history s) (events s ++ [e]).

(** ** loadConfig *)

Inductive ConfigField := FLatencyThresholdMs | FDegradedSpeedMbps.

(** Result of [json.Unmarshal(data, &cfg)] on a [Config]: an error, or the
    list of struct fields the document assigned, in document order.  A
    setting the document does not mention is not in the list. *)
Inductive UnmarshalResult :=
| UnmarshalError
| UnmarshalOk (assigned : list (ConfigField * float)).

(** The configuration file as [loadConfig] observes it: [os.ReadFile]
    fails, or it returns bytes on which [json.Unmarshal] gives
    [decoded]. *)
Inductive ReadFileResult :=
| ReadError
| ReadOk (decoded : UnmarshalResult).

Definition defaultConfig : Config := mkConfig 150 10.

(** [var cfg Config]. *)
Definition zeroConfig : Config := mkConfig 0 0.

Definition assign (cfg : Config) (fv : ConfigField * float) : Config :=
  match fst fv with
  | FLatencyThresholdMs => mkConfig (snd fv) (DegradedSpeedMbps cfg)
  | FDegradedSpeedMbps => mkConfig (LatencyThresholdMs cfg) (snd fv)
  end.

(** The second component of the result is what the function logs. *)
Definition loadConfig (file : ReadFileResult) : Config * list Event :=
  match file with
  | ReadError => (defaultConfig, [])
  | ReadOk decoded =>
      let cfg := zeroConfig in
      match decoded with
      | UnmarshalError => (defaultConfig, [LogParseFailed])
      | UnmarshalOk assigned => (fold_left assign assigned cfg, [])
      end
  end.

(** ** checkConnectivity *)

Inductive DialError := DialTimeoutErr | DialRefused | DialDNSFailure | DialOther.

Inductive DialResult :=
| DialErr (e : DialError)
| DialOk.

(** Clock readings and dial outcome of one probe: [time.Now()] before the
    dial, the reading used by [time.Since(start)], and the [time.Now()]
    stored in [Timestamp]. *)
Record ProbeEnv := mkProbe {
  probeStart : Time;
  probeDial : DialResult;
  probeConnected : Time;
  probeStamp : Time
}.

Definition checkConnectivity (p : ProbeEnv) : Status :=
  let start := probeStart p in
  match probeDial p with
  | DialErr _ =>
      mkStatus false 0 (probeStamp p) 0 Version
  | DialOk =>
      let latency := (Seconds (Since (probeConnected p) start) * 1000)%float in
      mkStatus true latency (probeStamp p) 0 Version
  end.

(** ** updateLastSpeed *)

(** What the database does with one insert attempt. *)
Inductive DbOutcome := PrepareFails | ExecFails | InsertOk.

Definition shouldWrite (speed lastRecorded : float) : bool :=
  fneq speed 0 || fneq lastRecorded 0.

Definition updateLastSpeed (speed : float) (now : Time) (db : DbOutcome)
                           (s : State) : State :=
  (* speedMutex.Lock() *)
  let s := set_lastSpeed speed s in
  let write := shouldWrite speed (lastRecordedSpeed s) in
  let s := if write then set_lastRecordedSpeed speed s else s in
  (* speedMutex.Unlock() *)
  if negb write then emit LogSkipping s
  else
    let s := emit DbPrepare s in
    match db with
    | PrepareFails => emit LogPrepareFailed s
    | ExecFails =>
        emit LogInsertFailed (emit (DbExec (mkRow now true 0 speed Version)) s)
    | InsertOk =>
        let row := mkRow now true 0 speed Version in
        insert_row row (emit (DbExec row) s)
    end.

(** ** measureDownloadSpeedAsync *)

(** The gate, lines 87-93: one critical section of [guardMutex].  The
    boolean tells whether the goroutine was spawned. *)
Definition gateClosed (now : Time) (s : State) : bool :=
  measuring s || (Since now (lastMeasurementTime s) <? measurementCooldown).

Definition measureDownloadSpeedAsync (now : Time) (s : State) : State * bool :=
  if gateClosed now s then (s, false)
  else (set_measuring true s, true).

(** Result of [httpClient.Get(url)] followed by [io.Copy(io.Discard, body)]:
    the request fails, or [n] bytes are read and the copy ends with or
    without an error. *)
Inductive GetResult :=
| GetErr
| GetOk (n : Z) (copyFailed : bool).

(** What one run of the goroutine observes. *)
Record BodyEnv := mkBody {
  bodyStart : Time;
  bodyGet : GetResult;
  bodyCopied : Time;
  bodyRowTime : Time;
  bodyDb : DbOutcome
}.

(** The goroutine's function body, lines 103-126, without the deferred
    call. *)
Definition measurementBody (e : BodyEnv) (s : State) : State :=
  let s := emit LogStarting s in
  let start := bodyStart e in
  match bodyGet e with
  | GetErr =>
      updateLastSpeed 0 (bodyRowTime e) (bodyDb e) (emit LogDownloadFailed s)
  | GetOk n true =>
      updateLastSpeed 0 (bodyRowTime e) (bodyDb e) (emit LogReadFailed s)
  | GetOk n false =>
      let duration := Seconds (Since (bodyCopied e) start) in
      if PrimFloat.eqb duration 0 then
        updateLastSpeed 0 (bodyRowTime e) (bodyDb e) s
      else
        let mbps := (float64_of_int64 (int64_mul n 8) / duration / 1000000)%float in
        updateLastSpeed mbps (bodyRowTime e) (bodyDb e)
                        (emit (LogDownloadSpeed mbps n duration) s)
  end.

(** The deferred function, lines 96-101: the second critical section of
    [guardMutex]. *)
Definition releaseGuard (now : Time) (s : State) : State :=
  set_lastMeasurementTime now (set_measuring false s).

(** The goroutine from start to finish: the body, then the deferred call. *)
Definition goroutine (e : BodyEnv) (tEnd : Time) (s : State) : State :=
  releaseGuard tEnd (measurementBody e s).

(** ** The /status handler *)

(** The response the handler encodes, lines 180-192. *)
Definition statusResponse (p : ProbeEnv) (tStamp : Time) (s : State) : Status :=
  let status := checkConnectivity p in
  mkStatus (Online status) (LatencyMs status) tStamp (lastSpeed s) Version.

(** The whole handler: the response, then the gate when online. *)
Definition handleStatus (p : ProbeEnv) (tStamp tGate : Time) (s : State)
  : Status * (State * bool) :=
  let status := statusResponse p tStamp s in
  if Online status then (status, measureDownloadSpeedAsync tGate s)
  else (status, (s, false)).

(** ** The running agent

    The agent is a pool of goroutines over the shared [State].  A step is
    one critical section or one stretch of goroutine-local work:
    - [LRequest]: the /status handler answers and, when online, runs the gate;
    - [LTryStart]: any other call of [measureDownloadSpeedAsync];
    - [LBody i]: measurement goroutine [i] downloads and calls
      [updateLastSpeed];
    - [LDone i]: goroutine [i] runs its deferred function and exits.
    The speed lock section and the insert of [updateLastSpeed] are taken
    as one step.  Clock readings taken under [guardMutex] never decrease
    (Go's monotonic clock): a label whose reading precedes [clock] is not
    enabled. *)

Inductive Phase := Downloading | Updated.

Record Goroutine := mkG {
  spawnedAt : Time;
  phase : Phase
}.

Record Sys := mkSys {
  st : State;
  clock : Time;
  pool : list Goroutine;
  completed : list (Time * Time);   (* (spawned, exited), newest first *)
  responses : list Status           (* responses sent, oldest first *)
}.

Definition initSys : Sys := mkSys initState zeroTime [] [] [].

Inductive Label :=
| LRequest (p : ProbeEnv) (tStamp tGate : Time)
| LTryStart (now : Time)
| LBody (i : nat) (e : BodyEnv)
| LDone (i : nat) (now : Time).

Fixpoint set_nth {A} (i : nat) (x : A) (l : list A) : list A :=
  match l, i with
  | [], _ => []
  | _ :: t, O => x :: t
  | y :: t, S j => y :: set_nth j x t
  end.

Fixpoint remove_nth {A} (i : nat) (l : list A) : list A :=
  match l, i with
  | [], _ => []
  | _ :: t, O => t
  | y :: t, S j => y :: remove_nth j t
  end.

(** The system after a gate evaluation at [now] with result [r]. *)
Definition afterGate (now : Time) (r : State * bool) (sys : Sys) : Sys :=
  mkSys (fst r) now
        (if snd r then pool sys ++ [mkG now Downloading] else pool sys)
        (completed sys) (responses sys).

Definition step (l : Label) (sys : Sys) : option Sys :=
  match l with
  | LRequest p tStamp tGate =>
      let r := handleStatus p tStamp tGate (st sys) in
      let sys1 := mkSys (st sys) (clock sys) (pool sys) (completed sys)
                        (responses sys ++ [fst r]) in
      if Online (fst r) then
        if clock sys <=? tGate then Some (afterGate tGate (snd r) sys1)
        else None
      else Some sys1
  | LTryStart now =>
      if clock sys <=? now
      then Some (afterGate now (measureDownloadSpeedAsync now (st sys)) sys)
      else None
  | LBody i e =>
      match nth_error (pool sys) i with
      | Some (mkG t Downloading) =>
          Some (mkSys (measurementBody e (st sys)) (clock sys)
                      (set_nth i (mkG t Updated) (pool sys))
                      (completed sys) (responses sys))
      | _ => None
      end
  | LDone i now =>
      match nth_error (pool sys) i with
      | Some (mkG t Updated) =>
          if clock sys <=? now
          then Some (mkSys (releaseGuard now (st sys)) now
                           (remove_nth i (pool sys))
                           ((t, now) :: completed sys) (responses sys))
          else None
      | _ => None
      end
  end.

Fixpoint run (ls : list Label) (sys : Sys) : option Sys :=
  match ls with
  | [] => Some sys
  | l :: ls' =>
      match step l sys with
      | Some sys' => run ls' sys'
      | None => None
      end
  end.

(** A measurement as an interval of time: spawned, and exited unless it
    is still in the pool. *)
Definition spans (sys : Sys) : list (Time * option Time) :=
  map (fun g => (spawnedAt g, None)) (pool sys)
  ++ map (fun c => (fst c, Some (snd c))) (completed sys).

(** The measurement [sp] is in flight at some instant of [[a, b)]. *)
Definition executesIn (a b : Time) (sp : Time * option Time) : bool :=
  (fst sp <? b) &&
  match snd sp with
  | None => true
  | Some e => a <=? e
  end.

(** Consecutive calls of [updateLastSpeed], each with the clock reading
    and the database outcome it meets. *)
Definition updates (calls : list (float * Time * DbOutcome)) (s : State) : State :=
  fold_left (fun s c => updateLastSpeed (fst (fst c)) (snd (fst c)) (snd c) s)
            calls s.

(** Number of insert attempts made so far: one [db.Prepare] each. *)
Definition isPrepare (e : Event) : bool :=
  match e with
  | DbPrepare => true
  | _ => false
  end.

Definition insertAttempts (s : State) : nat :=
  List.length (filter isPrepare (events s)).

(** Speed of the newest row of the table, 0 for an empty table. *)
Definition lastWritten (h : list HistoryRow) : float :=
  last (map speed h) 0%float.

(** The same calls, every insert succeeding. *)
Definition allOk (calls : list (float * Time * DbOutcome))
  : list (float * Time * DbOutcome) :=
  map (fun c => (fst c, InsertOk)) calls.

(** The speed a run of the goroutine hands to [updateLastSpeed]. *)
Definition elapsedSeconds (e : BodyEnv) : float :=
  Seconds (Since (bodyCopied e) (bodyStart e)).

Definition measuredSpeed (e : BodyEnv) : float :=
  match bodyGet e with
  | GetOk n false =>
      if PrimFloat.eqb (elapsedSeconds e) 0 then 0%float
      else (float64_of_int64 (int64_mul n 8) / elapsedSeconds e / 1000000)%float
  | _ => 0%float
  end.

(** The failed runs: the request fails, the copy fails, or the elapsed
    time is zero. *)
Inductive FailedRun (e : BodyEnv) : Prop :=
| TransportError : bodyGet e = GetErr -> FailedRun e
| ReadFailure (n : Z) : bodyGet e = GetOk n true -> FailedRun e
| ZeroDuration (n : Z) :
    bodyGet e = GetOk n false ->
    PrimFloat.eqb (elapsedSeconds e) 0 = true ->
    FailedRun e.

(** [s'] is [s] with further events: no variable and no row differs. *)
Definition sameButEvents (s s' : State) : Prop :=
  lastSpeed s' = lastSpeed s /\
  lastRecordedSpeed s' = lastRecordedSpeed s /\
  measuring s' = measuring s /\
  lastMeasurementTime s' = lastMeasurementTime s /\
  history s' = history s /\
  insertAttempts s' = insertAttempts s.

(** ** Invariant of the running agent *)

(** Completed measurements, newest first, lie a cooldown apart. *)
Fixpoint spaced (cs : list (Time * Time)) : Prop :=
  match cs with
  | [] => True
  | c :: rest =>
      Forall (fun c' => snd c' + measurementCooldown <= fst c) rest /\ spaced rest
  end.

Record Inv (sys : Sys) : Prop := mkInv {
  inv_pool : (List.length (pool sys) <= 1)%nat;
  inv_flag : measuring (st sys) = match pool sys with [] => false | _ => true end;
  inv_clock : lastMeasurementTime (st sys) <= clock sys;
  inv_started : Forall (fun g => spawnedAt g <= clock sys) (pool sys);
  inv_ended : Forall (fun c => fst c <= snd c /\ snd c <= lastMeasurementTime (st sys))
                     (completed sys);
  inv_gap : Forall (fun g => Forall (fun c => snd c + measurementCooldown <= spawnedAt g)
                                    (completed sys))
                   (pool sys);
  inv_spaced : spaced (completed sys)
}.

(** Shape of a row of the table. *)
Definition rowShape (r : HistoryRow) : Prop :=
  online r = true /\ latency r = 0%float.

(** ** Sample runs *)

(** A clock reading of the year 2025, and one run of the agent: a first
    call passes the gate, a call one second later is turned away, the
    measurement completes, and the next calls come 3 and 40 seconds after
    the first. *)
Definition T0 : Time := 63900000000 * Second.

Definition sampleBody : BodyEnv :=
  mkBody T0 (GetOk 5000000 false) (T0 + Second) (T0 + Second) InsertOk.

Definition sampleRun : list Label :=
  [ LTryStart T0;
    LTryStart (T0 + Second);
    LBody 0 sampleBody;
    LDone 0 (T0 + 2 * Second);
    LTryStart (T0 + 3 * Second);
    LTryStart (T0 + 40 * Second) ].

Definition sampleEnd : Sys :=
  Eval vm_compute in
    match run sampleRun initSys with
    | Some sys => sys
    | None => initSys
    end.

(** A second run: an offline request, then an online request with 25 ms
    of latency whose measurement fails, a later measurement that
    succeeds, and one that fails again. *)
Definition probeOffline : ProbeEnv :=
  mkProbe T0 (DialErr DialTimeoutErr) (T0 + 2 * Second) (T0 + 2 * Second).

Definition probeOnline (t : Time) : ProbeEnv :=
  mkProbe t DialOk (t + 25000000) (t + 25000000).

Definition failedBody (t : Time) : BodyEnv :=
  mkBody t GetErr t t InsertOk.

Definition goodBody (t : Time) : BodyEnv :=
  mkBody t (GetOk 5000000 false) (t + Second) (t + Second) InsertOk.

Definition requestRun : list Label :=
  [ LRequest probeOffline (T0 + 2 * Second) (T0 + 2 * Second);
    LRequest (probeOnline (T0 + 5 * Second)) (T0 + 6 * Second) (T0 + 6 * Second);
    LBody 0 (failedBody (T0 + 6 * Second));
    LDone 0 (T0 + 7 * Second);
    LRequest (probeOnline (T0 + 60 * Second)) (T0 + 61 * Second) (T0 + 61 * Second);
    LBody 0 (goodBody (T0 + 61 * Second));
    LDone 0 (T0 + 63 * Second);
    LRequest (probeOnline (T0 + 120 * Second)) (T0 + 121 * Second) (T0 + 121 * Second);
    LBody 0 (failedBody (T0 + 121 * Second));
    LDone 0 (T0 + 122 * Second) ].

Definition requestEnd : Sys :=
  Eval vm_compute in
    match run requestRun initSys with
    | Some sys => sys
    | None => initSys
    end.

Definition zeroElapsedBody : BodyEnv :=
  mkBody T0 (GetOk 0 false) T0 T0 InsertOk.

(** ** Further notions used in the properties *)

(** The state in which [main] starts serving when [history.db] already
    holds [table]: the package-level variables have their zero values and
    [CREATE TABLE IF NOT EXISTS] leaves the stored rows alone. *)
Definition startState (table : list HistoryRow) : State :=
  mkState 0%float 0%float false zeroTime table [].

(** [v == 0] on [float64]. *)
Definition isZero (v : float) : bool := PrimFloat.eqb v 0.

(** No two neighbouring speeds are both zero. *)
Fixpoint noAdjacentZeros (vs : list float) : bool :=
  match vs with
  | [] => true
  | v :: rest =>
      match rest with
      | [] => true
      | w :: _ => negb (isZero v && isZero w) && noAdjacentZeros rest
      end
  end.

Definition isBody (l : Label) : bool :=
  match l with
  | LBody _ _ => true
  | _ => false
  end.

(** The measurement [sp] was spawned at an instant of [[a, b)]. *)
Definition startedIn (a b : Time) (sp : Time * option Time) : bool :=
  (a <=? fst sp) && (fst sp <? b).

(** Exit time of the newest finished goroutine. *)
Definition lastExit (sys : Sys) : Time :=
  match completed sys with
  | [] => zeroTime
  | c :: _ => snd c
  end.

(** Spawn times, newest first, at least a cooldown apart. *)
Fixpoint gapped (ts : list Time) : Prop :=
  match ts with
  | [] => True
  | x :: rest => Forall (fun y => y + measurementCooldown <= x) rest /\ gapped rest
  end.

(** Calls of [updateLastSpeed] whose speeds are all zero. *)
Definition zeroCalls (calls : list (float * Time * DbOutcome)) : Prop :=
  Forall (fun c => isZero (fst (fst c)) = true) calls.

(** The table has no two neighbouring zero rows, and a non-zero
    [lastRecordedSpeed] is the speed of its last row. *)
Definition tableTidy (s : State) : Prop :=
  noAdjacentZeros (map speed (history s)) = true /\
  (fneq (lastRecordedSpeed s) 0 = true ->
   lastWritten (history s) = lastRecordedSpeed s).

(** Rows added to [table] so far; none yet with [lastRecordedSpeed]
    still zero, or the first of them with a non-zero speed. *)
Definition freshRows (table : list HistoryRow) (s : State) : Prop :=
  exists rows,
    history s = table ++ rows /\
    match rows with
    | [] => fneq (lastRecordedSpeed s) 0 = false
    | r :: _ => isZero (speed r) = false
    end.

(** Further sample inputs. *)
Definition idleRun : list Label :=
  [ LTryStart T0;
    LRequest (probeOnline (T0 + Second)) (T0 + 2 * Second) (T0 + 2 * Second);
    LRequest probeOffline (T0 + 3 * Second) (T0 + 3 * Second) ].

Definition threeZeros : list (float * Time * DbOutcome) :=
  [ (0%float, T0 + 60 * Second, InsertOk);
    (0%float, T0 + 120 * Second, InsertOk);
    (0%float, T0 + 180 * Second, InsertOk) ].

(** ** Notions used for the probe and the configuration *)

Definition fieldEqb (a b : ConfigField) : bool :=
  match a, b with
  | FLatencyThresholdMs, FLatencyThresholdMs => true
  | FDegradedSpeedMbps, FDegradedSpeedMbps => true
  | _, _ => false
  end.

(** The value a decoded document gives a setting: the one it assigned
    last, and 0 when it does not assign the setting. *)
Definition decodedValue (f : ConfigField) (assigned : list (ConfigField * float))
  : float :=
  match find (fun fv => fieldEqb (fst fv) f) (rev assigned) with
  | Some fv => snd fv
  | None => 0%float
  end.

(** A probe started at [t] whose dial succeeds after [m] milliseconds. *)
Definition probeAfterMs (t : Time) (m : Z) (stamp : Time) : ProbeEnv :=
  mkProbe t DialOk (t + m * 1000000) stamp.

(** The latency reported for an elapsed time of [ns] nanoseconds. *)
Definition latencyOf (ns : Duration) : float := (Seconds ns * 1000)%float.

(** [latencyOf] on [m] whole milliseconds is within [2^-42] of [m], and
    is [m] itself up to one second. *)
Definition latencyAccurate (m : Z) : bool :=
  PrimFloat.leb
    (PrimFloat.abs (latencyOf (m * 1000000) - float64_of_int64 m)) 0x1p-42%float
  && ((1000 <? m) || PrimFloat.Leibniz.eqb (latencyOf (m * 1000000))
                                            (float64_of_int64 m)).

(** The whole milliseconds up to the dial timeout of two seconds. *)
Definition dialMillis : list Z := map Z.of_nat (seq 0 2001).

(** * Properties *)

(** ** Clock arithmetic *)

(** [lia] after exposing that times and durations are integers. *)
Ltac tlia := unfold Time, Duration in *; simpl in *; lia.

Lemma Since_below (now t bound : Z) :
  minDuration < bound <= maxDuration ->
  (Since now t <? bound) = (now - t <? bound).
Proof.
  unfold Since, Sub, minDuration, maxDuration. intros Hb.
  destruct (Z.ltb_spec (now - t) (- 2 ^ 63));
    [| destruct (Z.ltb_spec (2 ^ 63 - 1) (now - t))];
    destruct (Z.ltb_spec (now - t) bound);
    try reflexivity;
    repeat match goal with
           | |- (?x <? ?y) = _ => destruct (Z.ltb_spec x y)
           end; try reflexivity; lia.
Qed.

Lemma gateClosed_iff (now : Time) (s : State) :
  gateClosed now s = true <->
  measuring s = true \/ now - lastMeasurementTime s < measurementCooldown.
Proof.
  unfold gateClosed.
  rewrite Since_below by (unfold minDuration, maxDuration, measurementCooldown, Second; lia).
  rewrite orb_true_iff, Z.ltb_lt. reflexivity.
Qed.

(** ** The guard fields are touched by the two guard sections only *)

Lemma updateLastSpeed_guard (v : float) (now : Time) (db : DbOutcome) (s : State) :
  measuring (updateLastSpeed v now db s) = measuring s /\
  lastMeasurementTime (updateLastSpeed v now db s) = lastMeasurementTime s.
Proof.
  unfold updateLastSpeed.
  destruct (shouldWrite v _); destruct db; simpl; auto.
Qed.

Lemma measurementBody_guard (e : BodyEnv) (s : State) :
  measuring (measurementBody e s) = measuring s /\
  lastMeasurementTime (measurementBody e s) = lastMeasurementTime s.
Proof.
  unfold measurementBody.
  destruct (bodyGet e) as [|n []];
    [| | destruct (PrimFloat.eqb _ 0)];
    match goal with
    | |- context [updateLastSpeed ?v ?t ?d ?s0] =>
        destruct (updateLastSpeed_guard v t d s0) as [-> ->]
    end; simpl; auto.
Qed.

(** ** Single flight and cooldown *)

Lemma Inv_init : Inv initSys.
Proof. constructor; simpl; auto; unfold zeroTime; tlia. Qed.

Lemma Inv_afterGate (now : Time) (sys : Sys) :
  Inv sys -> clock sys <= now ->
  Inv (afterGate now (measureDownloadSpeedAsync now (st sys)) sys).
Proof.
  intros [Hp Hf Hc Hs He Hg Hsp] Hnow.
  unfold measureDownloadSpeedAsync, afterGate.
  destruct (gateClosed now (st sys)) eqn:Hgate; simpl.
  - constructor; simpl; auto; try tlia.
    eapply Forall_impl; [| exact Hs]. simpl. intros; tlia.
  - assert (Hopen : ~ (measuring (st sys) = true \/
                       now - lastMeasurementTime (st sys) < measurementCooldown)).
    { rewrite <- gateClosed_iff. congruence. }
    assert (Hm : measuring (st sys) = false)
      by (destruct (measuring (st sys)); auto; exfalso; auto).
    assert (Hcd : lastMeasurementTime (st sys) + measurementCooldown <= now) by tlia.
    rewrite Hm in Hf.
    destruct (pool sys) as [|g gs]; [| discriminate].
    constructor; simpl; auto; try tlia.
    + constructor; [tlia | constructor].
    + constructor; [| constructor].
      eapply Forall_impl; [| exact He]. simpl. intros c [_ Hc']. tlia.
Qed.

Lemma Inv_step (l : Label) (sys sys' : Sys) :
  Inv sys -> step l sys = Some sys' -> Inv sys'.
Proof.
  intros HI Hstep. destruct l as [p tStamp tGate | now | i e | i now]; simpl in Hstep.
  - unfold handleStatus, statusResponse in Hstep. simpl in Hstep.
    destruct (Online (checkConnectivity p)); simpl in Hstep.
    + destruct (Z.leb_spec (clock sys) tGate); [| discriminate].
      injection Hstep as <-.
      pose proof (Inv_afterGate tGate sys HI H) as HI'.
      destruct HI'. constructor; assumption.
    + injection Hstep as <-. destruct HI. constructor; assumption.
  - destruct (Z.leb_spec (clock sys) now); [| discriminate].
    injection Hstep as <-. apply Inv_afterGate; assumption.
  - destruct HI as [Hp Hf Hc Hs He Hg Hsp].
    destruct (nth_error (pool sys) i) as [[t []]|] eqn:Hn; try discriminate.
    injection Hstep as <-.
    destruct (pool sys) as [|g [|g' gs]]; simpl in *; [destruct i; discriminate | | lia].
    destruct i as [|i]; [| destruct i; discriminate].
    injection Hn as ->.
    destruct (measurementBody_guard e (st sys)) as [Em El].
    constructor; simpl; rewrite ?Em, ?El; auto.
    + inversion Hs; subst. constructor; auto.
    + inversion Hg; subst. constructor; auto.
  - destruct HI as [Hp Hf Hc Hs He Hg Hsp].
    destruct (nth_error (pool sys) i) as [[t []]|] eqn:Hn; try discriminate.
    destruct (Z.leb_spec (clock sys) now); [| discriminate].
    injection Hstep as <-.
    destruct (pool sys) as [|g [|g' gs]]; simpl in *; [destruct i; discriminate | | lia].
    destruct i as [|i]; [| destruct i; discriminate].
    injection Hn as ->. simpl in *.
    inversion Hs; subst. inversion Hg; subst. simpl in *.
    constructor; simpl; auto; try tlia.
    constructor; simpl; [tlia |].
    eapply Forall_impl; [| exact He]. simpl. intros c [? ?]. tlia.
Qed.

Lemma Inv_run (ls : list Label) :
  forall sys sys', Inv sys -> run ls sys = Some sys' -> Inv sys'.
Proof.
  induction ls as [|l ls IH]; simpl; intros sys sys' HI Hrun.
  - injection Hrun as <-. exact HI.
  - destruct (step l sys) as [sys1|] eqn:Hs; [| discriminate].
    eapply IH; [| exact Hrun]. eapply Inv_step; eassumption.
Qed.

Lemma filter_none {A} (f : A -> bool) (l : list A) :
  Forall (fun x => f x = false) l -> filter f l = [].
Proof.
  induction 1 as [|x l Hx _ IH]; simpl; [reflexivity |].
  rewrite Hx. exact IH.
Qed.

Lemma completed_window (a b : Time) (cs : list (Time * Time)) :
  b - a <= measurementCooldown ->
  spaced cs ->
  (List.length (filter (executesIn a b) (map (fun c => (fst c, Some (snd c))) cs)) <= 1)%nat.
Proof.
  intros Hw. induction cs as [|c rest IH]; simpl; intros Hsp; [tlia |].
  destruct Hsp as [Hgap Hrest].
  destruct (executesIn a b (fst c, Some (snd c))) eqn:Hc; [| auto].
  simpl. rewrite filter_none; [tlia |].
  unfold executesIn in Hc. simpl in Hc.
  apply andb_true_iff in Hc. destruct Hc as [Hlt _]. apply Z.ltb_lt in Hlt.
  apply Forall_map. eapply Forall_impl; [| exact Hgap].
  intros c' Hc'. unfold executesIn. simpl.
  apply andb_false_iff. right. apply Z.leb_gt. tlia.
Qed.

Lemma Inv_window (a b : Time) (sys : Sys) :
  Inv sys -> b - a <= measurementCooldown ->
  (List.length (filter (executesIn a b) (spans sys)) <= 1)%nat.
Proof.
  intros [Hp Hf Hc Hs He Hg Hsp] Hw. unfold spans.
  destruct (pool sys) as [|g [|g' gs]]; simpl in *; [| | lia].
  - apply completed_window; assumption.
  - destruct (executesIn a b (spawnedAt g, None)) eqn:Hin.
    + simpl. rewrite filter_none; [tlia |].
      unfold executesIn in Hin. simpl in Hin. rewrite andb_true_r in Hin.
      apply Z.ltb_lt in Hin. inversion Hg; subst.
      apply Forall_map. eapply Forall_impl; [| eassumption].
      intros c Hc'. unfold executesIn. simpl.
      apply andb_false_iff. right. apply Z.leb_gt. tlia.
    + apply completed_window; assumption.
Qed.

(** In [sampleRun] the calls at +1s and +3s are turned away and the call
    at +40s starts the second measurement. *)
Example sampleRun_spans :
  spans sampleEnd
  = [ (T0 + 40 * Second, None); (T0, Some (T0 + 2 * Second)) ]
  /\ map speed (history (st sampleEnd)) = [40%float].
Proof. vm_compute. split; reflexivity. Qed.

(** C1. The gate of [measureDownloadSpeedAsync] is one critical section:
    when [measuring] is set or fewer than [measurementCooldown]
    nanoseconds have passed since [lastMeasurementTime], the call returns
    the state as it found it and spawns nothing.  Consequently, after any
    sequence of calls, requests and goroutine steps, at most one
    measurement is in flight, and no window of time of at most one
    cooldown contains instants of two measurements. *)
Theorem gate_single_flight_cooldown :
  (forall (now : Time) (s : State),
      measuring s = true \/ now - lastMeasurementTime s < measurementCooldown ->
      measureDownloadSpeedAsync now s = (s, false))
  /\
  (forall (ls : list Label) (sys : Sys),
      run ls initSys = Some sys ->
      (List.length (pool sys) <= 1)%nat /\
      forall a b : Time,
        b - a <= measurementCooldown ->
        (List.length (filter (executesIn a b) (spans sys)) <= 1)%nat).
Proof.
  split.
  - intros now s H. apply gateClosed_iff in H.
    unfold measureDownloadSpeedAsync. rewrite H. reflexivity.
  - intros ls sys Hrun.
    assert (HI : Inv sys) by (eapply Inv_run; [apply Inv_init | exact Hrun]).
    split; [apply HI |].
    intros a b Hw. apply Inv_window; assumption.
Qed.

Lemma gate_single_flight_cooldown_witness :
  (measuring (set_measuring true initState) = true \/
   (T0 + Second) - lastMeasurementTime (set_measuring true initState)
     < measurementCooldown) /\
  measureDownloadSpeedAsync (T0 + Second) (set_measuring true initState)
    = (set_measuring true initState, false) /\
  run sampleRun initSys = Some sampleEnd /\
  (T0 + 31 * Second) - (T0 + Second) <= measurementCooldown /\
  (List.length (pool sampleEnd) <= 1)%nat /\
  (List.length (filter (executesIn (T0 + Second)%Z (T0 + 31 * Second)%Z)
                       (spans sampleEnd)) <= 1)%nat.
Proof.
  destruct gate_single_flight_cooldown as [Hnoop Hrun].
  assert (Hgate : measuring (set_measuring true initState) = true \/
                  (T0 + Second) - lastMeasurementTime (set_measuring true initState)
                    < measurementCooldown) by (left; reflexivity).
  assert (Hsample : run sampleRun initSys = Some sampleEnd)
    by (vm_compute; reflexivity).
  assert (Hw : (T0 + 31 * Second) - (T0 + Second) <= measurementCooldown)
    by (vm_compute; discriminate).
  destruct (Hrun sampleRun sampleEnd Hsample) as [Hpool Hwin].
  split; [exact Hgate |].
  split; [exact (Hnoop _ _ Hgate) |].
  split; [exact Hsample |].
  split; [exact Hw |].
  split; [exact Hpool | exact (Hwin _ _ Hw)].
Defined.

(** ** updateLastSpeed, field by field *)

Lemma insertAttempts_emit (ev : Event) (s : State) :
  insertAttempts (emit ev s)
  = (insertAttempts s + if isPrepare ev then 1 else 0)%nat.
Proof.
  unfold insertAttempts, emit. simpl.
  rewrite filter_app, length_app. simpl.
  destruct (isPrepare ev); reflexivity.
Qed.

Lemma updateLastSpeed_lastSpeed (v : float) (now : Time) (db : DbOutcome) (s : State) :
  lastSpeed (updateLastSpeed v now db s) = v.
Proof.
  unfold updateLastSpeed.
  destruct (shouldWrite v _); destruct db; reflexivity.
Qed.

Lemma updateLastSpeed_lastRecordedSpeed (v : float) (now : Time) (db : DbOutcome) (s : State) :
  lastRecordedSpeed (updateLastSpeed v now db s)
  = if shouldWrite v (lastRecordedSpeed s) then v else lastRecordedSpeed s.
Proof.
  unfold updateLastSpeed. simpl.
  destruct (shouldWrite v _); destruct db; reflexivity.
Qed.

Lemma updateLastSpeed_attempts (v : float) (now : Time) (db : DbOutcome) (s : State) :
  insertAttempts (updateLastSpeed v now db s)
  = (insertAttempts s + if shouldWrite v (lastRecordedSpeed s) then 1 else 0)%nat.
Proof.
  unfold updateLastSpeed. simpl.
  destruct (shouldWrite v _); destruct db;
    unfold insertAttempts; simpl;
    repeat rewrite filter_app; repeat rewrite length_app; simpl; lia.
Qed.

Lemma updateLastSpeed_history (v : float) (now : Time) (db : DbOutcome) (s : State) :
  history (updateLastSpeed v now db s)
  = history s ++
    match db with
    | InsertOk =>
        if shouldWrite v (lastRecordedSpeed s)
        then [mkRow now true 0 v Version] else []
    | _ => []
    end.
Proof.
  unfold updateLastSpeed. simpl.
  destruct (shouldWrite v _); destruct db; simpl; rewrite ?app_nil_r; reflexivity.
Qed.

Lemma updates_snoc (calls : list (float * Time * DbOutcome))
      (c : float * Time * DbOutcome) (s : State) :
  updates (calls ++ [c]) s
  = updateLastSpeed (fst (fst c)) (snd (fst c)) (snd c) (updates calls s).
Proof. unfold updates. rewrite fold_left_app. reflexivity. Qed.

Ltac eval_updates :=
  unfold updates; simpl fold_left;
  repeat rewrite ?updateLastSpeed_attempts, ?updateLastSpeed_history,
                 ?updateLastSpeed_lastRecordedSpeed;
  vm_compute.

(** C2. From the initial state, the five calls of [updateLastSpeed] with
    speeds 5, 0, 0, 0, 7 make exactly three insert attempts, whatever the
    database answers; when the inserts succeed the table holds exactly
    three rows, for 5, for the first 0 and for 7.  In general a call
    makes an insert attempt if and only if [speed != 0] or
    [lastRecordedSpeed != 0], and in that case it stores the speed in
    [lastRecordedSpeed]; otherwise it changes neither
    [lastRecordedSpeed] nor the table. *)
Theorem dedup_rule :
  (forall (t1 t2 t3 t4 t5 : Time) (d1 d2 d3 d4 d5 : DbOutcome),
      insertAttempts
        (updates [ (5%float, t1, d1); (0%float, t2, d2); (0%float, t3, d3);
                   (0%float, t4, d4); (7%float, t5, d5) ] initState)
      = 3%nat)
  /\
  (forall t1 t2 t3 t4 t5 : Time,
      history
        (updates [ (5%float, t1, InsertOk); (0%float, t2, InsertOk);
                   (0%float, t3, InsertOk); (0%float, t4, InsertOk);
                   (7%float, t5, InsertOk) ] initState)
      = [ mkRow t1 true 0 5 Version;
          mkRow t2 true 0 0 Version;
          mkRow t5 true 0 7 Version ])
  /\
  (forall (v : float) (now : Time) (db : DbOutcome) (s : State),
      let s' := updateLastSpeed v now db s in
      (insertAttempts s' = S (insertAttempts s)
       <-> fneq v 0 = true \/ fneq (lastRecordedSpeed s) 0 = true)
      /\ (fneq v 0 = true \/ fneq (lastRecordedSpeed s) 0 = true ->
          lastRecordedSpeed s' = v
          /\ (db = InsertOk ->
              history s' = history s ++ [mkRow now true 0 v Version]))
      /\ (~ (fneq v 0 = true \/ fneq (lastRecordedSpeed s) 0 = true) ->
          insertAttempts s' = insertAttempts s
          /\ lastRecordedSpeed s' = lastRecordedSpeed s
          /\ history s' = history s)).
Proof.
  split; [| split].
  - intros. eval_updates. reflexivity.
  - intros. eval_updates. reflexivity.
  - intros v now db s s'. subst s'.
    rewrite updateLastSpeed_attempts, updateLastSpeed_lastRecordedSpeed,
            updateLastSpeed_history.
    assert (Hsw : shouldWrite v (lastRecordedSpeed s) = true
                  <-> fneq v 0 = true \/ fneq (lastRecordedSpeed s) 0 = true)
      by (unfold shouldWrite; apply orb_true_iff).
    destruct (shouldWrite v (lastRecordedSpeed s)).
    + assert (Hyes : fneq v 0 = true \/ fneq (lastRecordedSpeed s) 0 = true)
        by (apply Hsw; reflexivity).
      split; [split; [intros _; exact Hyes | intros _; lia] |].
      split; [intros _; split; [reflexivity | intros ->; reflexivity] |].
      intros Hno. contradiction.
    + assert (Hno : ~ (fneq v 0 = true \/ fneq (lastRecordedSpeed s) 0 = true))
        by (intros H; apply Hsw in H; discriminate).
      split; [split; [intros H; lia | intros H; contradiction] |].
      split; [intros H; contradiction |].
      intros _. destruct db; rewrite ?app_nil_r; repeat split; lia.
Qed.

Lemma dedup_rule_witness :
  (fneq 0 0 = true \/ fneq (lastRecordedSpeed (updates [(5%float, T0, InsertOk)] initState)) 0 = true)
  /\ lastRecordedSpeed
       (updateLastSpeed 0 (T0 + 60 * Second) InsertOk
                        (updates [(5%float, T0, InsertOk)] initState))
     = 0%float
  /\ ~ (fneq 0 0 = true \/ fneq (lastRecordedSpeed initState) 0 = true)
  /\ history (updateLastSpeed 0 T0 InsertOk initState) = history initState.
Proof.
  destruct dedup_rule as [_ [_ Hrule]].
  destruct (Hrule 0%float (T0 + 60 * Second) InsertOk
                  (updates [(5%float, T0, InsertOk)] initState))
    as [_ [Hyes _]].
  destruct (Hrule 0%float T0 InsertOk initState) as [_ [_ Hno]].
  assert (H1 : fneq 0 0 = true \/
               fneq (lastRecordedSpeed (updates [(5%float, T0, InsertOk)] initState)) 0 = true)
    by (right; vm_compute; reflexivity).
  assert (H2 : ~ (fneq 0 0 = true \/ fneq (lastRecordedSpeed initState) 0 = true))
    by (vm_compute; intros [H | H]; discriminate).
  split; [exact H1 |].
  split; [exact (proj1 (Hyes H1)) |].
  split; [exact H2 |].
  exact (proj2 (proj2 (Hno H2))).
Defined.

(** ** The goroutine body ends in one call of updateLastSpeed *)

Lemma sameButEvents_emit (ev : Event) (s s' : State) :
  isPrepare ev = false -> sameButEvents s s' -> sameButEvents s (emit ev s').
Proof.
  intros Hev (H1 & H2 & H3 & H4 & H5 & H6).
  unfold sameButEvents. rewrite insertAttempts_emit, Hev. simpl.
  repeat split; try assumption. lia.
Qed.

Lemma sameButEvents_refl (s : State) : sameButEvents s s.
Proof. unfold sameButEvents. repeat split. Qed.

Lemma measurementBody_updates (e : BodyEnv) (s : State) :
  exists s0 : State,
    sameButEvents s s0 /\
    measurementBody e s
    = updateLastSpeed (measuredSpeed e) (bodyRowTime e) (bodyDb e) s0.
Proof.
  unfold measurementBody, measuredSpeed, elapsedSeconds.
  destruct (bodyGet e) as [|n []];
    [| | destruct (PrimFloat.eqb (Seconds (Since (bodyCopied e) (bodyStart e))) 0)];
    eexists; (split; [| reflexivity]);
    repeat (apply sameButEvents_emit; [reflexivity |]);
    apply sameButEvents_refl.
Qed.

(** ** Rows of the table *)

Lemma updateLastSpeed_rows (v : float) (now : Time) (db : DbOutcome) (s : State) :
  Forall rowShape (history s) ->
  Forall rowShape (history (updateLastSpeed v now db s)).
Proof.
  intros H. rewrite updateLastSpeed_history. apply Forall_app. split; [exact H |].
  destruct db; try constructor.
  destruct (shouldWrite v _); constructor; [split; reflexivity | constructor].
Qed.

Lemma measurementBody_rows (e : BodyEnv) (s : State) :
  Forall rowShape (history s) ->
  Forall rowShape (history (measurementBody e s)).
Proof.
  intros H. destruct (measurementBody_updates e s) as (s0 & Hs0 & ->).
  apply updateLastSpeed_rows.
  destruct Hs0 as (_ & _ & _ & _ & -> & _). exact H.
Qed.

Lemma gate_history (now : Time) (s : State) :
  history (fst (measureDownloadSpeedAsync now s)) = history s.
Proof.
  unfold measureDownloadSpeedAsync. destruct (gateClosed now s); reflexivity.
Qed.

Lemma step_rows (l : Label) (sys sys' : Sys) :
  step l sys = Some sys' ->
  Forall rowShape (history (st sys)) ->
  Forall rowShape (history (st sys')).
Proof.
  intros Hstep H. destruct l as [p tStamp tGate | now | i e | i now]; simpl in Hstep.
  - unfold handleStatus, statusResponse in Hstep. simpl in Hstep.
    destruct (Online (checkConnectivity p)); simpl in Hstep.
    + destruct (clock sys <=? tGate); [| discriminate].
      injection Hstep as <-. simpl. rewrite gate_history. exact H.
    + injection Hstep as <-. exact H.
  - destruct (clock sys <=? now); [| discriminate].
    injection Hstep as <-. simpl. rewrite gate_history. exact H.
  - destruct (nth_error (pool sys) i) as [[t []]|]; try discriminate.
    injection Hstep as <-. simpl. apply measurementBody_rows, H.
  - destruct (nth_error (pool sys) i) as [[t []]|]; try discriminate.
    destruct (clock sys <=? now); [| discriminate].
    injection Hstep as <-. exact H.
Qed.

Example requestRun_result :
  run requestRun initSys = Some requestEnd
  /\ map speed (history (st requestEnd)) = [40%float; 0%float]
  /\ map LatencyMs (responses requestEnd) = [0%float; 25%float; 25%float; 25%float]
  /\ map DownloadSpeedMbps (responses requestEnd) = [0%float; 0%float; 0%float; 40%float].
Proof. vm_compute. repeat split; reflexivity. Qed.

(** C10. Every row of the table, after any run of the agent, has
    [online = true] and [latency = 0], whatever the probes of the
    requests in the run found; a row differs from another in its
    timestamp, speed and version columns only. *)
Theorem rows_online_true_latency_zero (ls : list Label) (sys : Sys) :
  run ls initSys = Some sys ->
  Forall (fun r => online r = true /\ latency r = 0%float) (history (st sys)).
Proof.
  assert (Hgen : forall ls s0 s1,
             run ls s0 = Some s1 ->
             Forall rowShape (history (st s0)) ->
             Forall rowShape (history (st s1))).
  { clear. induction ls as [|l ls IH]; simpl; intros s0 s1 Hrun H.
    - injection Hrun as <-. exact H.
    - destruct (step l s0) as [s'|] eqn:Hs; [| discriminate].
      eapply IH; [exact Hrun |]. eapply step_rows; eassumption. }
  intros Hrun. apply (Hgen ls initSys sys Hrun). constructor.
Qed.

Lemma rows_online_true_latency_zero_witness :
  run requestRun initSys = Some requestEnd /\
  Forall (fun r => online r = true /\ latency r = 0%float)
         (history (st requestEnd)).
Proof.
  assert (Hrun : run requestRun initSys = Some requestEnd)
    by (vm_compute; reflexivity).
  split; [exact Hrun |].
  exact (rows_online_true_latency_zero requestRun requestEnd Hrun).
Defined.

(** C9. After [updateLastSpeed] is called with a speed [S], the variable
    [lastSpeed] is [S] and the /status handler answers with
    [download_speed_mbps = S]: for every [S] (so for every [S >= 0]),
    whether or not the call made an insert attempt. *)
Theorem lastSpeed_roundtrip (S : float) (now : Time) (db : DbOutcome) (s : State)
        (p : ProbeEnv) (tStamp tGate : Time) :
  lastSpeed (updateLastSpeed S now db s) = S /\
  DownloadSpeedMbps (statusResponse p tStamp (updateLastSpeed S now db s)) = S /\
  DownloadSpeedMbps
    (fst (handleStatus p tStamp tGate (updateLastSpeed S now db s))) = S.
Proof.
  assert (H : DownloadSpeedMbps
                (statusResponse p tStamp (updateLastSpeed S now db s)) = S)
    by (unfold statusResponse; simpl; apply updateLastSpeed_lastSpeed).
  split; [apply updateLastSpeed_lastSpeed |].
  split; [exact H |].
  unfold handleStatus.
  destruct (Online (statusResponse p tStamp (updateLastSpeed S now db s)));
    exact H.
Qed.

(** [lastRecordedSpeed] and the table after a run of calls. *)
Lemma lastRecorded_invariant (calls : list (float * Time * DbOutcome)) :
  lastRecordedSpeed (updates calls initState)
  = lastRecordedSpeed (updates (allOk calls) initState)
  /\ lastRecordedSpeed (updates (allOk calls) initState)
     = lastWritten (history (updates (allOk calls) initState)).
Proof.
  induction calls as [|c calls [IH1 IH2]] using rev_ind.
  - split; reflexivity.
  - unfold allOk in *. rewrite map_app. simpl map.
    rewrite !updates_snoc. simpl fst. simpl snd.
    rewrite !updateLastSpeed_lastRecordedSpeed, updateLastSpeed_history.
    rewrite <- IH1.
    split; [reflexivity |].
    destruct (shouldWrite (fst (fst c)) (lastRecordedSpeed (updates calls initState))).
    + unfold lastWritten. rewrite map_app. simpl. apply eq_sym, last_last.
    + rewrite app_nil_r, IH1. exact IH2.
Qed.

(** C4, as the code has it.  [lastRecordedSpeed] is set when a row is
    handed to the database, before the insert and whatever its outcome:
    after any sequence of calls of [updateLastSpeed] it has the value it
    would have had every insert succeeded, and that value is the speed of
    the last row the table would then hold (0 while it would be empty). *)
Theorem lastRecordedSpeed_tracks_forwarded
        (calls : list (float * Time * DbOutcome)) :
  lastRecordedSpeed (updates calls initState)
  = lastWritten (history (updates (allOk calls) initState)).
Proof.
  destruct (lastRecorded_invariant calls) as [H1 H2].
  rewrite H1. exact H2.
Qed.

(** C4 as stated fails: after a stored row for 5 and a measurement of 7
    whose insert fails, the table ends with the row for 5 while
    [lastRecordedSpeed] is 7. *)
Lemma lastRecordedSpeed_after_failed_insert :
  let s := updates [ (5%float, T0, InsertOk);
                     (7%float, T0 + 60 * Second, ExecFails) ] initState in
  map speed (history s) = [5%float]
  /\ lastRecordedSpeed s = 7%float
  /\ lastRecordedSpeed s <> lastWritten (history s).
Proof.
  vm_compute. split; [reflexivity | split; [reflexivity |]].
  intros H. apply (f_equal (fun x => PrimFloat.eqb x 5)) in H.
  vm_compute in H. discriminate.
Qed.

(** ** The goroutine *)

Lemma nth_error_set_nth {A} (l : list A) (i : nat) (x y : A) :
  nth_error l i = Some y -> nth_error (set_nth i x l) i = Some x.
Proof.
  revert i. induction l as [|a l IH]; intros [|i] H; simpl in *;
    try discriminate; auto.
Qed.

(** C3. Whatever the download does (request error, read error, zero
    elapsed time, success), the goroutine ends by calling
    [updateLastSpeed] once, with the measured speed, on a state that
    differs from the one it started in by log lines only, and then runs
    the deferred guard section, which leaves [measuring = false] and
    [lastMeasurementTime] at the clock reading of that section.  In the
    running agent a spawned goroutine can always take these two steps, so
    no path leaves [measuring] set. *)
Theorem goroutine_releases_guard :
  (forall (e : BodyEnv) (tEnd : Time) (s : State),
      exists s0 : State,
        sameButEvents s s0 /\
        goroutine e tEnd s
        = releaseGuard tEnd
            (updateLastSpeed (measuredSpeed e) (bodyRowTime e) (bodyDb e) s0) /\
        measuring (goroutine e tEnd s) = false /\
        lastMeasurementTime (goroutine e tEnd s) = tEnd)
  /\
  (forall (sys : Sys) (i : nat) (t : Time) (e : BodyEnv) (now : Time),
      nth_error (pool sys) i = Some (mkG t Downloading) ->
      clock sys <= now ->
      exists sys' : Sys,
        run [LBody i e; LDone i now] sys = Some sys' /\
        st sys' = goroutine e now (st sys) /\
        measuring (st sys') = false /\
        lastMeasurementTime (st sys') = now).
Proof.
  split.
  - intros e tEnd s. unfold goroutine.
    destruct (measurementBody_updates e s) as (s0 & Hs0 & Hbody).
    exists s0. rewrite Hbody.
    split; [exact Hs0 |]. split; [reflexivity |]. split; reflexivity.
  - intros sys i t e now Hnth Hclk. simpl. rewrite Hnth. simpl.
    rewrite (nth_error_set_nth _ _ _ _ Hnth).
    apply Z.leb_le in Hclk. rewrite Hclk.
    eexists. split; [reflexivity |]. simpl. repeat split.
Qed.

Lemma goroutine_releases_guard_witness :
  nth_error (pool (afterGate T0 (measureDownloadSpeedAsync T0 initState) initSys)) 0
  = Some (mkG T0 Downloading)
  /\ clock (afterGate T0 (measureDownloadSpeedAsync T0 initState) initSys)
     <= T0 + 2 * Second
  /\ exists sys' : Sys,
       run [LBody 0 (failedBody T0); LDone 0 (T0 + 2 * Second)]
           (afterGate T0 (measureDownloadSpeedAsync T0 initState) initSys)
       = Some sys'
       /\ st sys'
          = goroutine (failedBody T0) (T0 + 2 * Second)
              (st (afterGate T0 (measureDownloadSpeedAsync T0 initState) initSys))
       /\ measuring (st sys') = false
       /\ lastMeasurementTime (st sys') = T0 + 2 * Second.
Proof.
  assert (Hnth : nth_error (pool (afterGate T0 (measureDownloadSpeedAsync T0 initState)
                                            initSys)) 0
                 = Some (mkG T0 Downloading)) by reflexivity.
  assert (Hclk : clock (afterGate T0 (measureDownloadSpeedAsync T0 initState) initSys)
                 <= T0 + 2 * Second) by (vm_compute; discriminate).
  split; [exact Hnth |]. split; [exact Hclk |].
  exact (proj2 goroutine_releases_guard _ 0%nat T0 (failedBody T0)
               (T0 + 2 * Second) Hnth Hclk).
Defined.

(** ** Failed runs *)

Lemma measuredSpeed_failed (e : BodyEnv) : FailedRun e -> measuredSpeed e = 0%float.
Proof.
  unfold measuredSpeed. intros [H | n H | n H Hz]; rewrite H; try reflexivity.
  rewrite Hz. reflexivity.
Qed.

Lemma zero_elapsed (e : BodyEnv) :
  bodyCopied e = bodyStart e -> PrimFloat.eqb (elapsedSeconds e) 0 = true.
Proof.
  intros H. unfold elapsedSeconds, Since, Sub. rewrite H, Z.sub_diag.
  vm_compute. reflexivity.
Qed.

(** C7. A run of the goroutine that fails (request error, read error, or
    zero elapsed time) calls [updateLastSpeed] with speed 0 and returns
    normally; afterwards [lastSpeed] is 0, and a /status response carries
    the probe's [online] and [latency_ms] and [download_speed_mbps = 0],
    nothing else. *)
Theorem failed_run_records_zero (e : BodyEnv) (tEnd : Time) (s : State) :
  FailedRun e ->
  (exists s0 : State,
      sameButEvents s s0 /\
      measurementBody e s = updateLastSpeed 0 (bodyRowTime e) (bodyDb e) s0)
  /\ lastSpeed (goroutine e tEnd s) = 0%float
  /\ forall (p : ProbeEnv) (tStamp : Time),
       statusResponse p tStamp (goroutine e tEnd s)
       = mkStatus (Online (checkConnectivity p)) (LatencyMs (checkConnectivity p))
                  tStamp 0 Version.
Proof.
  intros Hf.
  destruct (measurementBody_updates e s) as (s0 & Hs0 & Hbody).
  rewrite (measuredSpeed_failed e Hf) in Hbody.
  assert (Hls : lastSpeed (goroutine e tEnd s) = 0%float).
  { unfold goroutine. rewrite Hbody. simpl. apply updateLastSpeed_lastSpeed. }
  split; [exists s0; split; assumption |].
  split; [exact Hls |].
  intros p tStamp. unfold statusResponse. rewrite Hls. reflexivity.
Qed.

Lemma failed_run_records_zero_witness :
  FailedRun zeroElapsedBody /\
  lastSpeed (goroutine zeroElapsedBody (T0 + Second)
                       (updates [(5%float, T0 - 60 * Second, InsertOk)] initState))
  = 0%float.
Proof.
  assert (Hf : FailedRun zeroElapsedBody).
  { apply (ZeroDuration zeroElapsedBody 0); [reflexivity |].
    apply zero_elapsed. reflexivity. }
  split; [exact Hf |].
  exact (proj1 (proj2 (failed_run_records_zero zeroElapsedBody (T0 + Second)
                         (updates [(5%float, T0 - 60 * Second, InsertOk)] initState)
                         Hf))).
Defined.

(** ** The speed formula *)






(** ** The probe *)

Lemma Sub_add_in_range (t : Time) (d : Duration) :
  0 <= d <= maxDuration -> Sub (t + d) t = d.
Proof.
  intros Hd. unfold Sub. replace (t + d - t) with d by tlia.
  unfold minDuration, maxDuration in *.
  destruct (Z.ltb_spec d (- 2 ^ 63)); [tlia |].
  destruct (Z.ltb_spec (2 ^ 63 - 1) d); [tlia | reflexivity].
Qed.

Lemma dialMillis_accurate : forallb latencyAccurate dialMillis = true.
Proof. vm_compute. reflexivity. Qed.

Lemma latencyAccurate_upto_timeout (m : Z) :
  0 <= m <= 2000 -> latencyAccurate m = true.
Proof.
  intros Hm.
  apply (proj1 (forallb_forall latencyAccurate dialMillis) dialMillis_accurate).
  unfold dialMillis. rewrite <- (Z2Nat.id m) by lia.
  apply in_map, in_seq. lia.
Qed.

(** C6. [checkConnectivity] always returns a [Status]: after a successful
    dial, [Online = true], [LatencyMs] the time elapsed since the start of
    the attempt, in seconds times 1000, and [Timestamp] the clock reading
    taken on return; after a failed dial, whatever the error,
    [Online = false], [LatencyMs = 0] and [Timestamp] that reading.  The
    latency is the elapsed time in milliseconds: for a dial that succeeds
    after [m] whole milliseconds, [m] up to the timeout of 2000, and any
    start time, [LatencyMs] is within [2^-42] of [m], and equal to [m] up
    to one second. *)
Theorem checkConnectivity_outcomes :
  (forall p : ProbeEnv,
      match probeDial p with
      | DialOk =>
          checkConnectivity p
          = mkStatus true
                     (Seconds (Since (probeConnected p) (probeStart p)) * 1000)%float
                     (probeStamp p) 0 Version
      | DialErr _ =>
          checkConnectivity p = mkStatus false 0 (probeStamp p) 0 Version
      end)
  /\
  (forall (t stamp : Time) (m : Z),
      0 <= m <= 2000 ->
      let status := checkConnectivity (probeAfterMs t m stamp) in
      Online status = true
      /\ Timestamp status = stamp
      /\ PrimFloat.leb
           (PrimFloat.abs (LatencyMs status - float64_of_int64 m)) 0x1p-42%float
         = true
      /\ (m <= 1000 -> LatencyMs status = float64_of_int64 m)).
Proof.
  split.
  - intros p. unfold checkConnectivity. destruct (probeDial p); reflexivity.
  - intros t stamp m Hm status. subst status.
    unfold checkConnectivity, probeAfterMs. cbn [probeDial probeStart
      probeConnected probeStamp Online Timestamp LatencyMs].
    unfold Since. rewrite Sub_add_in_range by (unfold maxDuration; lia).
    pose proof (latencyAccurate_upto_timeout m Hm) as Hacc.
    unfold latencyAccurate, latencyOf in Hacc.
    apply andb_true_iff in Hacc. destruct Hacc as [Hclose Hexact].
    split; [reflexivity |]. split; [reflexivity |]. split; [exact Hclose |].
    intros Hle. apply FloatAxioms.Leibniz.eqb_spec.
    destruct (Z.ltb_spec 1000 m); [lia | exact Hexact].
Qed.

Lemma checkConnectivity_outcomes_witness :
  0 <= 25 <= 2000
  /\ 25 <= 1000
  /\ LatencyMs (checkConnectivity (probeAfterMs T0 25 (T0 + 25000000)))
     = 25%float.
Proof.
  assert (H1 : 0 <= 25 <= 2000) by lia.
  assert (H2 : 25 <= 1000) by lia.
  split; [exact H1 |]. split; [exact H2 |].
  exact (proj2 (proj2 (proj2 (proj2 checkConnectivity_outcomes T0
                                     (T0 + 25000000) 25 H1))) H2).
Defined.

(** A connect that takes 25 ms is reported as 25. *)
Example checkConnectivity_25ms :
  checkConnectivity (probeOnline T0)
  = mkStatus true 25 (T0 + 25000000) 0 Version.
Proof. vm_compute. reflexivity. Qed.

(** ** Configuration *)

Lemma fold_assign_latency (assigned : list (ConfigField * float)) :
  forall cfg : Config,
    ~ In FLatencyThresholdMs (map fst assigned) ->
    LatencyThresholdMs (fold_left assign assigned cfg) = LatencyThresholdMs cfg.
Proof.
  induction assigned as [|[f v] rest IH]; simpl; intros cfg Hnot; [reflexivity |].
  rewrite IH by tauto.
  destruct f; [exfalso; tauto | reflexivity].
Qed.

Lemma fold_assign_degraded (assigned : list (ConfigField * float)) :
  forall cfg : Config,
    ~ In FDegradedSpeedMbps (map fst assigned) ->
    DegradedSpeedMbps (fold_left assign assigned cfg) = DegradedSpeedMbps cfg.
Proof.
  induction assigned as [|[f v] rest IH]; simpl; intros cfg Hnot; [reflexivity |].
  rewrite IH by tauto.
  destruct f; [reflexivity | exfalso; tauto].
Qed.

Lemma decodedValue_snoc (f : ConfigField) (assigned : list (ConfigField * float))
      (fv : ConfigField * float) :
  decodedValue f (assigned ++ [fv])
  = if fieldEqb (fst fv) f then snd fv else decodedValue f assigned.
Proof.
  unfold decodedValue. rewrite rev_unit. simpl.
  destruct (fieldEqb (fst fv) f); reflexivity.
Qed.

Lemma fold_assign_decoded (assigned : list (ConfigField * float)) :
  fold_left assign assigned zeroConfig
  = mkConfig (decodedValue FLatencyThresholdMs assigned)
             (decodedValue FDegradedSpeedMbps assigned).
Proof.
  induction assigned as [|fv assigned IH] using rev_ind; [reflexivity |].
  rewrite fold_left_app, !decodedValue_snoc, IH. simpl.
  unfold assign. destruct fv as [[] v]; reflexivity.
Qed.

(** C5, as the code has it.  [loadConfig] always returns a [Config].  It
    returns the defaults 150 and 10 when the file cannot be read and when
    its contents do not decode; when the contents decode, a setting the
    file does not contain is returned as 0, and a setting it contains is
    returned with the value the file gives it. *)
Theorem loadConfig_fallback :
  loadConfig ReadError = (mkConfig 150 10, [])
  /\
  loadConfig (ReadOk UnmarshalError) = (mkConfig 150 10, [LogParseFailed])
  /\
  (forall assigned : list (ConfigField * float),
      let cfg := fst (loadConfig (ReadOk (UnmarshalOk assigned))) in
      (~ In FLatencyThresholdMs (map fst assigned) ->
       LatencyThresholdMs cfg = 0%float)
      /\ (~ In FDegradedSpeedMbps (map fst assigned) ->
          DegradedSpeedMbps cfg = 0%float))
  /\
  (forall assigned : list (ConfigField * float),
      loadConfig (ReadOk (UnmarshalOk assigned))
      = (mkConfig (decodedValue FLatencyThresholdMs assigned)
                  (decodedValue FDegradedSpeedMbps assigned), []))
  /\
  (forall a b : float,
      loadConfig (ReadOk (UnmarshalOk [ (FLatencyThresholdMs, a);
                                        (FDegradedSpeedMbps, b) ]))
      = (mkConfig a b, [])
      /\ loadConfig (ReadOk (UnmarshalOk [ (FDegradedSpeedMbps, b);
                                           (FLatencyThresholdMs, a) ]))
         = (mkConfig a b, [])).
Proof.
  split; [reflexivity | split; [reflexivity |]].
  split; [| split].
  - intros assigned cfg. subst cfg. simpl. split; intros H.
    + rewrite fold_assign_latency by exact H. reflexivity.
    + rewrite fold_assign_degraded by exact H. reflexivity.
  - intros assigned. simpl. rewrite fold_assign_decoded. reflexivity.
  - intros a b. split; reflexivity.
Qed.

(** A file that sets [degradedSpeedMbps] only, and one that sets 200 and
    25. *)
Lemma loadConfig_fallback_witness :
  ~ In FLatencyThresholdMs (map fst [(FDegradedSpeedMbps, 25%float)])
  /\ LatencyThresholdMs
       (fst (loadConfig (ReadOk (UnmarshalOk [(FDegradedSpeedMbps, 25%float)]))))
     = 0%float
  /\ loadConfig (ReadOk (UnmarshalOk [ (FLatencyThresholdMs, 200%float);
                                       (FDegradedSpeedMbps, 25%float) ]))
     = (mkConfig 200 25, []).
Proof.
  assert (H : ~ In FLatencyThresholdMs (map fst [(FDegradedSpeedMbps, 25%float)]))
    by (simpl; intros [H | []]; discriminate).
  split; [exact H |].
  split.
  - exact (proj1 (proj1 (proj2 (proj2 loadConfig_fallback))
                        [(FDegradedSpeedMbps, 25%float)]) H).
  - exact (proj1 (proj2 (proj2 (proj2 (proj2 loadConfig_fallback)))
                        200%float 25%float)).
Defined.

(** C5 as stated fails: a file that decodes and contains neither setting
    (the document [{}]) yields 0 and 0, not 150 and 10. *)
Lemma loadConfig_settings_absent :
  fst (loadConfig (ReadOk (UnmarshalOk []))) = mkConfig 0 0
  /\ fst (loadConfig (ReadOk (UnmarshalOk []))) <> mkConfig 150 10.
Proof.
  split; [reflexivity |].
  simpl. intros H.
  apply (f_equal (fun c => PrimFloat.eqb (LatencyThresholdMs c) 150)) in H.
  vm_compute in H. discriminate.
Qed.

(** * Further properties of the code *)

(** ** The gate *)

Lemma gate_spawns_iff (now : Time) (s : State) :
  snd (measureDownloadSpeedAsync now s) = true
  <-> measuring s = false /\ measurementCooldown <= now - lastMeasurementTime s.
Proof.
  unfold measureDownloadSpeedAsync.
  destruct (gateClosed now s) eqn:Hg; simpl.
  - apply gateClosed_iff in Hg. split; [discriminate |].
    intros [Hm Hcd]. destruct Hg as [Hg | Hg]; [congruence | tlia].
  - split; [intros _ | reflexivity].
    assert (Hopen : ~ (measuring s = true \/
                       now - lastMeasurementTime s < measurementCooldown))
      by (rewrite <- gateClosed_iff; congruence).
    split; [destruct (measuring s); [exfalso; auto | reflexivity] | tlia].
Qed.

Lemma gate_open_state (now : Time) (s : State) :
  measuring s = false ->
  measurementCooldown <= now - lastMeasurementTime s ->
  measureDownloadSpeedAsync now s = (set_measuring true s, true).
Proof.
  intros Hm Hcd.
  assert (Hs : snd (measureDownloadSpeedAsync now s) = true)
    by (apply gate_spawns_iff; split; assumption).
  unfold measureDownloadSpeedAsync in *.
  destruct (gateClosed now s); [discriminate | reflexivity].
Qed.

(** X1. [measureDownloadSpeedAsync] spawns the goroutine exactly when no
    measurement is in progress and at least [measurementCooldown] has
    passed since [lastMeasurementTime] (the saturation of [time.Since]
    does not matter); it then sets [measuring] and changes nothing
    else. *)
Theorem gate_opens (now : Time) (s : State) :
  (snd (measureDownloadSpeedAsync now s) = true
   <-> measuring s = false /\ measurementCooldown <= now - lastMeasurementTime s)
  /\ (measuring s = false ->
      measurementCooldown <= now - lastMeasurementTime s ->
      measureDownloadSpeedAsync now s = (set_measuring true s, true)).
Proof.
  split; [apply gate_spawns_iff | apply gate_open_state].
Qed.

Lemma gate_opens_witness :
  measuring initState = false
  /\ measurementCooldown <= T0 - lastMeasurementTime initState
  /\ measureDownloadSpeedAsync T0 initState = (set_measuring true initState, true).
Proof.
  assert (H1 : measuring initState = false) by reflexivity.
  assert (H2 : measurementCooldown <= T0 - lastMeasurementTime initState)
    by (vm_compute; discriminate).
  split; [exact H1 |]. split; [exact H2 |].
  exact (proj2 (gate_opens T0 initState) H1 H2).
Defined.

(** X2. The cooldown counts from the end of a measurement, failed or
    not: after a goroutine has run its deferred section at [tEnd], a call
    at [now] starts the next measurement exactly when
    [now - tEnd >= measurementCooldown]. *)
Theorem cooldown_counts_from_completion
        (e : BodyEnv) (tEnd now : Time) (s : State) :
  snd (measureDownloadSpeedAsync now (goroutine e tEnd s)) = true
  <-> measurementCooldown <= now - tEnd.
Proof.
  rewrite gate_spawns_iff. unfold goroutine, releaseGuard. simpl.
  split; [intros [_ H]; exact H | intros H; split; [reflexivity | exact H]].
Qed.

Lemma cooldown_counts_from_completion_witness :
  measurementCooldown <= (T0 + 32 * Second) - (T0 + 2 * Second)
  /\ snd (measureDownloadSpeedAsync (T0 + 32 * Second)
            (goroutine (failedBody T0) (T0 + 2 * Second)
                       (set_measuring true initState))) = true.
Proof.
  assert (H : measurementCooldown <= (T0 + 32 * Second) - (T0 + 2 * Second))
    by (vm_compute; discriminate).
  split; [exact H |].
  exact (proj2 (cooldown_counts_from_completion (failedBody T0) (T0 + 2 * Second)
                  (T0 + 32 * Second) (set_measuring true initState)) H).
Defined.

(** ** What each step of the agent may change *)

Lemma run_invariant (P : Sys -> Prop) :
  (forall l s s', P s -> step l s = Some s' -> P s') ->
  forall ls s s', P s -> run ls s = Some s' -> P s'.
Proof.
  intros Hstep. induction ls as [|l ls IH]; simpl; intros s s' HP Hrun.
  - injection Hrun as <-. exact HP.
  - destruct (step l s) as [s1|] eqn:Hs; [| discriminate].
    exact (IH s1 s' (Hstep l s s1 HP Hs) Hrun).
Qed.

Lemma gate_frame (now : Time) (s : State) :
  let s' := fst (measureDownloadSpeedAsync now s) in
  lastSpeed s' = lastSpeed s /\
  lastRecordedSpeed s' = lastRecordedSpeed s /\
  lastMeasurementTime s' = lastMeasurementTime s /\
  history s' = history s /\
  events s' = events s.
Proof.
  unfold measureDownloadSpeedAsync.
  destruct (gateClosed now s); simpl; repeat split.
Qed.

(** X4. The /status handler never writes the speed variables, the guard
    time, the table or the log: the only change it can make is to set
    [measuring], and it does that only for an online probe met with an
    open gate.  After a failed dial it leaves the state as it is, spawns
    nothing and answers [online = false], [latency_ms = 0] with the last
    known speed. *)
Theorem handler_frame (p : ProbeEnv) (tStamp tGate : Time) (s : State) :
  let r := handleStatus p tStamp tGate s in
  (lastSpeed (fst (snd r)) = lastSpeed s /\
   lastRecordedSpeed (fst (snd r)) = lastRecordedSpeed s /\
   lastMeasurementTime (fst (snd r)) = lastMeasurementTime s /\
   history (fst (snd r)) = history s /\
   events (fst (snd r)) = events s)
  /\ (snd (snd r) = true ->
      probeDial p = DialOk /\ measuring s = false /\
      measurementCooldown <= tGate - lastMeasurementTime s /\
      fst (snd r) = set_measuring true s)
  /\ (snd (snd r) = false -> fst (snd r) = s)
  /\ (forall err : DialError,
        probeDial p = DialErr err ->
        r = (mkStatus false 0 tStamp (lastSpeed s) Version, (s, false))).
Proof.
  unfold handleStatus, statusResponse, checkConnectivity.
  destruct (probeDial p) as [err |] eqn:Hd; simpl.
  - repeat split; try discriminate.
  - split; [apply gate_frame |].
    split; [| split; [| discriminate]].
    + intros Hs. apply gate_spawns_iff in Hs as Hs'. destruct Hs' as [Hm Hcd].
      repeat split; try assumption.
      rewrite (gate_open_state tGate s Hm Hcd). reflexivity.
    + unfold measureDownloadSpeedAsync.
      destruct (gateClosed tGate s); simpl; [reflexivity | discriminate].
Qed.

Lemma handler_frame_witness :
  probeDial probeOffline = DialErr DialTimeoutErr
  /\ handleStatus probeOffline (T0 + 2 * Second) (T0 + 2 * Second)
                  (updates [(40%float, T0, InsertOk)] initState)
     = (mkStatus false 0 (T0 + 2 * Second) 40 Version,
        (updates [(40%float, T0, InsertOk)] initState, false)).
Proof.
  assert (H : probeDial probeOffline = DialErr DialTimeoutErr) by reflexivity.
  split; [exact H |].
  exact (proj2 (proj2 (proj2 (handler_frame probeOffline (T0 + 2 * Second)
                                (T0 + 2 * Second)
                                (updates [(40%float, T0, InsertOk)] initState))))
               DialTimeoutErr H).
Defined.

Lemma step_not_body (l : Label) (sys sys' : Sys) :
  isBody l = false -> step l sys = Some sys' ->
  lastSpeed (st sys') = lastSpeed (st sys) /\
  lastRecordedSpeed (st sys') = lastRecordedSpeed (st sys) /\
  history (st sys') = history (st sys) /\
  events (st sys') = events (st sys) /\
  exists rs, responses sys' = responses sys ++ rs /\
             Forall (fun r => DownloadSpeedMbps r = lastSpeed (st sys)) rs.
Proof.
  intros Hb Hstep.
  destruct l as [p tStamp tGate | now | i e | i now]; simpl in *; try discriminate.
  - unfold handleStatus, statusResponse in Hstep. simpl in Hstep.
    destruct (gate_frame tGate (st sys)) as (F1 & F2 & F3 & F4 & F5).
    assert (Hrs : Forall (fun r => DownloadSpeedMbps r = lastSpeed (st sys))
                         [mkStatus (Online (checkConnectivity p))
                                   (LatencyMs (checkConnectivity p)) tStamp
                                   (lastSpeed (st sys)) Version])
      by (constructor; [reflexivity | constructor]).
    destruct (Online (checkConnectivity p)); simpl in Hstep.
    + destruct (clock sys <=? tGate); [| discriminate].
      injection Hstep as <-. simpl. repeat split; try assumption.
      eexists; split; [reflexivity | exact Hrs].
    + injection Hstep as <-. simpl. repeat split.
      eexists; split; [reflexivity | exact Hrs].
  - destruct (clock sys <=? now); [| discriminate].
    destruct (gate_frame now (st sys)) as (F1 & F2 & F3 & F4 & F5).
    injection Hstep as <-. simpl. repeat split; try assumption.
    exists []. rewrite app_nil_r. split; [reflexivity | constructor].
  - destruct (nth_error (pool sys) i) as [[t []]|]; try discriminate.
    destruct (clock sys <=? now); [| discriminate].
    injection Hstep as <-. simpl. repeat split.
    exists []. rewrite app_nil_r. split; [reflexivity | constructor].
Qed.

(** X9. Between two calls of [updateLastSpeed] the agent keeps answering
    with the same speed: over any run without a goroutine body step
    (requests, gate calls, deferred sections, also while a download is
    under way) [lastSpeed] and the table stay as they are and every
    response sent carries that [lastSpeed]. *)
Theorem speed_kept_between_measurements (ls : list Label) (sys sys' : Sys) :
  forallb (fun l => negb (isBody l)) ls = true ->
  run ls sys = Some sys' ->
  lastSpeed (st sys') = lastSpeed (st sys) /\
  history (st sys') = history (st sys) /\
  exists rs, responses sys' = responses sys ++ rs /\
             Forall (fun r => DownloadSpeedMbps r = lastSpeed (st sys)) rs.
Proof.
  revert sys. induction ls as [|l ls IH]; simpl; intros sys Hnb Hrun.
  - injection Hrun as <-. repeat split.
    exists []. rewrite app_nil_r. split; [reflexivity | constructor].
  - apply andb_true_iff in Hnb. destruct Hnb as [Hl Hls].
    apply negb_true_iff in Hl.
    destruct (step l sys) as [s1|] eqn:Hs; [| discriminate].
    destruct (step_not_body l sys s1 Hl Hs) as (A1 & _ & A3 & _ & rs1 & A5 & A6).
    destruct (IH s1 Hls Hrun) as (B1 & B2 & rs2 & B3 & B4).
    rewrite B1, B2, A1, A3. repeat split.
    exists (rs1 ++ rs2). rewrite B3, A5, app_assoc. split; [reflexivity |].
    apply Forall_app. split; [exact A6 |].
    rewrite A1 in B4. exact B4.
Qed.

Lemma speed_kept_between_measurements_witness :
  forallb (fun l => negb (isBody l)) idleRun = true
  /\ (exists sys', run idleRun initSys = Some sys'
                   /\ lastSpeed (st sys') = lastSpeed (st initSys)).
Proof.
  assert (H1 : forallb (fun l => negb (isBody l)) idleRun = true) by reflexivity.
  split; [exact H1 |].
  destruct (run idleRun initSys) as [sys'|] eqn:Hrun;
    [| vm_compute in Hrun; discriminate].
  exists sys'. split; [reflexivity |].
  exact (proj1 (speed_kept_between_measurements idleRun initSys sys' H1 Hrun)).
Defined.

(** ** The guard in the running agent *)

Lemma lastExit_step (l : Label) (sys sys' : Sys) :
  lastMeasurementTime (st sys) = lastExit sys ->
  step l sys = Some sys' ->
  lastMeasurementTime (st sys') = lastExit sys'.
Proof.
  intros H Hstep. unfold lastExit in *.
  destruct l as [p tStamp tGate | now | i e | i now]; simpl in Hstep.
  - unfold handleStatus, statusResponse in Hstep. simpl in Hstep.
    destruct (gate_frame tGate (st sys)) as (_ & _ & F3 & _).
    destruct (Online (checkConnectivity p)); simpl in Hstep.
    + destruct (clock sys <=? tGate); [| discriminate].
      injection Hstep as <-. simpl. rewrite F3. exact H.
    + injection Hstep as <-. exact H.
  - destruct (clock sys <=? now); [| discriminate].
    destruct (gate_frame now (st sys)) as (_ & _ & F3 & _).
    injection Hstep as <-. simpl. rewrite F3. exact H.
  - destruct (nth_error (pool sys) i) as [[t []]|]; try discriminate.
    injection Hstep as <-. simpl.
    rewrite (proj2 (measurementBody_guard e (st sys))). exact H.
  - destruct (nth_error (pool sys) i) as [[t []]|]; try discriminate.
    destruct (clock sys <=? now); [| discriminate].
    injection Hstep as <-. reflexivity.
Qed.

(** X3. In every state the agent can reach, [measuring] is set exactly
    while a goroutine is between its spawn and its deferred section, and
    [lastMeasurementTime] is the exit time of the newest finished
    goroutine (the zero time before the first exit).  While a goroutine is
    in flight, also after its [updateLastSpeed], a call of
    [measureDownloadSpeedAsync] at any time changes neither the state nor
    the pool. *)
Theorem measuring_iff_in_flight (ls : list Label) (sys : Sys) :
  run ls initSys = Some sys ->
  (measuring (st sys) = true <-> pool sys <> [])
  /\ lastMeasurementTime (st sys) = lastExit sys
  /\ (pool sys <> [] ->
      forall (now : Time) (sys' : Sys),
        step (LTryStart now) sys = Some sys' ->
        st sys' = st sys /\ pool sys' = pool sys).
Proof.
  intros Hrun.
  assert (HI : Inv sys) by (eapply Inv_run; [apply Inv_init | exact Hrun]).
  assert (Hflag : measuring (st sys) = true <-> pool sys <> []).
  { rewrite (inv_flag sys HI). destruct (pool sys); split;
      try discriminate; try congruence; reflexivity. }
  split; [exact Hflag |].
  split.
  - apply (run_invariant (fun s => lastMeasurementTime (st s) = lastExit s))
      with (ls := ls) (s := initSys); [| reflexivity | exact Hrun].
    intros l s s' HP Hs. eapply lastExit_step; eassumption.
  - intros Hpool now sys' Hstep. simpl in Hstep.
    destruct (clock sys <=? now); [| discriminate].
    injection Hstep as <-.
    assert (Hm : measuring (st sys) = true) by (apply Hflag; exact Hpool).
    unfold measureDownloadSpeedAsync, gateClosed. rewrite Hm. simpl.
    split; reflexivity.
Qed.

Lemma measuring_iff_in_flight_witness :
  run sampleRun initSys = Some sampleEnd
  /\ pool sampleEnd <> []
  /\ measuring (st sampleEnd) = true
  /\ lastMeasurementTime (st sampleEnd) = T0 + 2 * Second.
Proof.
  assert (Hrun : run sampleRun initSys = Some sampleEnd)
    by (vm_compute; reflexivity).
  assert (Hpool : pool sampleEnd <> []) by (vm_compute; discriminate).
  destruct (measuring_iff_in_flight sampleRun sampleEnd Hrun) as (Hflag & Hlmt & _).
  split; [exact Hrun |]. split; [exact Hpool |].
  split; [exact (proj2 Hflag Hpool) | exact Hlmt].
Defined.

(** ** Rate of measurements *)

Lemma completed_gapped (cs : list (Time * Time)) :
  spaced cs -> Forall (fun c => fst c <= snd c) cs -> gapped (map fst cs).
Proof.
  induction cs as [|c rest IH]; simpl; intros Hsp Hle; [exact I |].
  destruct Hsp as [Hgap Hrest]. inversion Hle; subst.
  split; [| apply IH; assumption].
  apply Forall_map. rewrite Forall_forall in *.
  intros c' Hin. specialize (Hgap c' Hin). specialize (H2 c' Hin). tlia.
Qed.

Lemma Inv_gapped (sys : Sys) : Inv sys -> gapped (map fst (spans sys)).
Proof.
  intros [Hp Hf Hc Hs He Hg Hsp]. unfold spans. rewrite map_app, !map_map. simpl.
  assert (Hle : Forall (fun c => fst c <= snd c) (completed sys))
    by (eapply Forall_impl; [| exact He]; simpl; intros c [H _]; exact H).
  pose proof (completed_gapped _ Hsp Hle) as Hcg.
  destruct (pool sys) as [|g [|g' gs]]; simpl in *; [exact Hcg | | lia].
  split; [| exact Hcg].
  inversion Hg; subst. apply Forall_map. rewrite Forall_forall in *.
  intros c Hin. specialize (H1 c Hin). specialize (Hle c Hin). tlia.
Qed.

Lemma gapped_below (a b : Time) (ts : list Time) :
  forall x : Time,
    gapped ts ->
    Forall (fun y => y + measurementCooldown <= x) ts ->
    let n := List.length (filter (fun t => (a <=? t) && (t <? b)) ts) in
    n = 0%nat \/ Z.of_nat n * measurementCooldown <= x - a.
Proof.
  induction ts as [|y rest IH]; simpl; intros x Hg Hx; [left; reflexivity |].
  destruct Hg as [Hgy Hgr]. inversion Hx; subst.
  destruct ((a <=? y) && (y <? b)) eqn:Hin.
  - right. apply andb_true_iff in Hin. destruct Hin as [Hay _].
    apply Z.leb_le in Hay. simpl List.length.
    destruct (IH y Hgr Hgy) as [H0 | Hn].
    + rewrite H0. unfold measurementCooldown, Second in *. tlia.
    + unfold measurementCooldown, Second in *. tlia.
  - apply IH; assumption.
Qed.

Lemma gapped_rate (a b : Time) (ts : list Time) :
  a <= b -> gapped ts ->
  Z.of_nat (List.length (filter (fun t => (a <=? t) && (t <? b)) ts))
    * measurementCooldown
  < (b - a) + measurementCooldown.
Proof.
  intros Hab. induction ts as [|x rest IH]; simpl; intros Hg.
  - unfold measurementCooldown, Second. tlia.
  - destruct Hg as [Hgx Hgr].
    destruct ((a <=? x) && (x <? b)) eqn:Hin; [| apply IH; exact Hgr].
    apply andb_true_iff in Hin. destruct Hin as [Hax Hxb].
    apply Z.leb_le in Hax. apply Z.ltb_lt in Hxb. simpl List.length.
    destruct (gapped_below a b rest x Hgr Hgx) as [H0 | Hn].
    + rewrite H0. unfold measurementCooldown, Second. tlia.
    + unfold measurementCooldown, Second in *. tlia.
Qed.

(** X10. The gate bounds the rate of measurements: in any reachable
    state, the measurements spawned at an instant of [[a, b)] number
    fewer than [(b - a) / measurementCooldown + 1]. *)
Theorem measurement_rate_bound (ls : list Label) (sys : Sys) (a b : Time) :
  run ls initSys = Some sys ->
  a <= b ->
  Z.of_nat (List.length (filter (startedIn a b) (spans sys))) * measurementCooldown
  < (b - a) + measurementCooldown.
Proof.
  intros Hrun Hab.
  assert (HI : Inv sys) by (eapply Inv_run; [apply Inv_init | exact Hrun]).
  pose proof (gapped_rate a b _ Hab (Inv_gapped sys HI)) as H.
  assert (Hlen : List.length (filter (startedIn a b) (spans sys))
                 = List.length (filter (fun t => (a <=? t) && (t <? b))
                                       (map fst (spans sys)))).
  { clear. induction (spans sys) as [|sp l IHl]; simpl; [reflexivity |].
    unfold startedIn at 1.
    destruct ((a <=? fst sp) && (fst sp <? b)); simpl; rewrite IHl; reflexivity. }
  rewrite Hlen. exact H.
Qed.

Lemma measurement_rate_bound_witness :
  run sampleRun initSys = Some sampleEnd
  /\ T0 <= T0 + 60 * Second
  /\ Z.of_nat (List.length (filter (startedIn T0 (T0 + 60 * Second)%Z)
                                   (spans sampleEnd)))
     * measurementCooldown
     < (T0 + 60 * Second - T0) + measurementCooldown.
Proof.
  assert (Hrun : run sampleRun initSys = Some sampleEnd)
    by (vm_compute; reflexivity).
  assert (Hab : T0 <= T0 + 60 * Second) by (vm_compute; discriminate).
  split; [exact Hrun |]. split; [exact Hab |].
  exact (measurement_rate_bound sampleRun sampleEnd T0 (T0 + 60 * Second) Hrun Hab).
Defined.

(** ** The table only grows *)

Lemma measurementBody_history (e : BodyEnv) (s : State) :
  history (measurementBody e s)
  = history s ++
    match bodyDb e with
    | InsertOk =>
        if shouldWrite (measuredSpeed e) (lastRecordedSpeed s)
        then [mkRow (bodyRowTime e) true 0 (measuredSpeed e) Version] else []
    | _ => []
    end.
Proof.
  destruct (measurementBody_updates e s) as (s0 & (_ & H2 & _ & _ & H5 & _) & ->).
  rewrite updateLastSpeed_history, H2, H5. reflexivity.
Qed.

Lemma step_history (l : Label) (sys sys' : Sys) :
  step l sys = Some sys' ->
  exists rows,
    history (st sys') = history (st sys) ++ rows /\
    (List.length rows <= if isBody l then 1 else 0)%nat.
Proof.
  intros Hstep. destruct (isBody l) eqn:Hb.
  - destruct l as [| | i e |]; try discriminate. simpl in Hstep.
    destruct (nth_error (pool sys) i) as [[t []]|]; try discriminate.
    injection Hstep as <-. simpl. rewrite measurementBody_history.
    eexists; split; [reflexivity |].
    destruct (bodyDb e); simpl; try lia.
    destruct (shouldWrite _ _); simpl; lia.
  - destruct (step_not_body l sys sys' Hb Hstep) as (_ & _ & H & _).
    exists []. rewrite app_nil_r. split; [exact H | simpl; lia].
Qed.

(** X5. The agent only appends to the table: over any run, from any
    state, the rows present at the beginning are still there, unchanged
    and in place, and at most one row is added per goroutine body. *)
Theorem history_append_only (ls : list Label) (sys sys' : Sys) :
  run ls sys = Some sys' ->
  exists rows,
    history (st sys') = history (st sys) ++ rows /\
    (List.length rows <= List.length (filter isBody ls))%nat.
Proof.
  revert sys. induction ls as [|l ls IH]; simpl; intros sys Hrun.
  - injection Hrun as <-. exists []. rewrite app_nil_r. split; [reflexivity | simpl; lia].
  - destruct (step l sys) as [s1|] eqn:Hs; [| discriminate].
    destruct (step_history l sys s1 Hs) as (r1 & E1 & L1).
    destruct (IH s1 Hrun) as (r2 & E2 & L2).
    exists (r1 ++ r2). rewrite E2, E1, app_assoc. split; [reflexivity |].
    rewrite length_app. destruct (isBody l); simpl; lia.
Qed.

Lemma history_append_only_witness :
  run requestRun initSys = Some requestEnd
  /\ exists rows,
       history (st requestEnd) = history (st initSys) ++ rows /\
       (List.length rows <= List.length (filter isBody requestRun))%nat.
Proof.
  assert (Hrun : run requestRun initSys = Some requestEnd)
    by (vm_compute; reflexivity).
  split; [exact Hrun |].
  exact (history_append_only requestRun initSys requestEnd Hrun).
Defined.

(** ** Failed measurements and the table *)

(** X8. A failed measurement reaches the table only when the previous
    recorded speed was not zero and the insert succeeds; the row it then
    adds has speed 0.  In every other case the table is left as it was. *)
Theorem failed_run_persisted_once (e : BodyEnv) (tEnd : Time) (s : State) :
  FailedRun e ->
  history (goroutine e tEnd s)
  = history s ++
    match bodyDb e with
    | InsertOk =>
        if fneq (lastRecordedSpeed s) 0
        then [mkRow (bodyRowTime e) true 0 0 Version] else []
    | _ => []
    end.
Proof.
  intros Hf. unfold goroutine, releaseGuard. simpl.
  rewrite measurementBody_history, (measuredSpeed_failed e Hf).
  unfold shouldWrite.
  replace (fneq 0 0) with false by (vm_compute; reflexivity).
  reflexivity.
Qed.

Lemma failed_run_persisted_once_witness :
  FailedRun (failedBody T0)
  /\ history (goroutine (failedBody T0) (T0 + Second) initState) = [].
Proof.
  assert (Hf : FailedRun (failedBody T0)) by (apply TransportError; reflexivity).
  split; [exact Hf |].
  exact (failed_run_persisted_once (failedBody T0) (T0 + Second) initState Hf).
Defined.

(** ** Runs of zero readings *)

Lemma zero_update_skipped (v : float) (now : Time) (db : DbOutcome) (s : State) :
  isZero v = true -> fneq (lastRecordedSpeed s) 0 = false ->
  history (updateLastSpeed v now db s) = history s /\
  insertAttempts (updateLastSpeed v now db s) = insertAttempts s /\
  lastRecordedSpeed (updateLastSpeed v now db s) = lastRecordedSpeed s.
Proof.
  intros Hv Hl.
  rewrite updateLastSpeed_history, updateLastSpeed_attempts,
          updateLastSpeed_lastRecordedSpeed.
  unfold shouldWrite, fneq in *. unfold isZero in Hv. rewrite Hv.
  simpl. simpl in Hl. rewrite Hl.
  destruct db; rewrite app_nil_r; repeat split; lia.
Qed.

Lemma zero_updates_skipped (calls : list (float * Time * DbOutcome)) :
  forall s : State,
    zeroCalls calls -> fneq (lastRecordedSpeed s) 0 = false ->
    history (updates calls s) = history s /\
    insertAttempts (updates calls s) = insertAttempts s /\
    lastRecordedSpeed (updates calls s) = lastRecordedSpeed s.
Proof.
  induction calls as [|c calls IH]; intros s Hz Hl; [repeat split |].
  inversion Hz; subst. change (updates (c :: calls) s)
    with (updates calls (updateLastSpeed (fst (fst c)) (snd (fst c)) (snd c) s)).
  destruct (zero_update_skipped (fst (fst c)) (snd (fst c)) (snd c) s H1 Hl)
    as (A1 & A2 & A3).
  destruct (IH (updateLastSpeed (fst (fst c)) (snd (fst c)) (snd c) s) H2)
    as (B1 & B2 & B3); [rewrite A3; exact Hl |].
  rewrite B1, B2, B3, A1, A2, A3. repeat split.
Qed.

Lemma zero_update_clears (v : float) (now : Time) (db : DbOutcome) (s : State) :
  isZero v = true ->
  fneq (lastRecordedSpeed (updateLastSpeed v now db s)) 0 = false.
Proof.
  intros Hv. rewrite updateLastSpeed_lastRecordedSpeed.
  unfold shouldWrite, fneq, isZero in *. rewrite Hv. simpl.
  destruct (negb (PrimFloat.eqb (lastRecordedSpeed s) 0)) eqn:Hl.
  - rewrite Hv. reflexivity.
  - exact Hl.
Qed.

(** X7. An unbroken run of zero readings, however long and from any
    state, adds at most one row to the table and makes at most one insert
    attempt; once [lastRecordedSpeed] is zero such a run adds nothing and
    attempts nothing. *)
Theorem zero_run_one_row (calls : list (float * Time * DbOutcome)) (s : State) :
  zeroCalls calls ->
  (List.length (history (updates calls s)) <= List.length (history s) + 1)%nat
  /\ (insertAttempts (updates calls s) <= insertAttempts s + 1)%nat
  /\ (fneq (lastRecordedSpeed s) 0 = false ->
      history (updates calls s) = history s
      /\ insertAttempts (updates calls s) = insertAttempts s).
Proof.
  intros Hz. split; [| split].
  - destruct calls as [|c calls]; [simpl; lia |].
    inversion Hz; subst.
    change (updates (c :: calls) s)
      with (updates calls (updateLastSpeed (fst (fst c)) (snd (fst c)) (snd c) s)).
    destruct (zero_updates_skipped calls _ H2
                (zero_update_clears (fst (fst c)) (snd (fst c)) (snd c) s H1))
      as (A & _ & _).
    rewrite A, updateLastSpeed_history, length_app.
    destruct (snd c); simpl; try lia.
    destruct (shouldWrite _ _); simpl; lia.
  - destruct calls as [|c calls]; [simpl; lia |].
    inversion Hz; subst.
    change (updates (c :: calls) s)
      with (updates calls (updateLastSpeed (fst (fst c)) (snd (fst c)) (snd c) s)).
    destruct (zero_updates_skipped calls _ H2
                (zero_update_clears (fst (fst c)) (snd (fst c)) (snd c) s H1))
      as (_ & B & _).
    rewrite B, updateLastSpeed_attempts.
    destruct (shouldWrite _ _); simpl; lia.
  - intros Hl. destruct (zero_updates_skipped calls s Hz Hl) as (A & B & _).
    split; assumption.
Qed.

Lemma zero_run_one_row_witness :
  zeroCalls threeZeros
  /\ (List.length
        (history (updates threeZeros (updates [(5%float, T0, InsertOk)] initState)))
      <= List.length (history (updates [(5%float, T0, InsertOk)] initState)) + 1)%nat.
Proof.
  assert (Hz : zeroCalls threeZeros) by (repeat constructor).
  split; [exact Hz |].
  exact (proj1 (zero_run_one_row threeZeros
                  (updates [(5%float, T0, InsertOk)] initState) Hz)).
Defined.

(** ** Shape of the table when inserts succeed *)

Lemma noAdjacentZeros_snoc (vs : list float) (v : float) :
  noAdjacentZeros vs = true ->
  (vs = [] \/ isZero (last vs 0%float) && isZero v = false) ->
  noAdjacentZeros (vs ++ [v]) = true.
Proof.
  induction vs as [|a rest IH]; intros Hn Hl; [reflexivity |].
  destruct rest as [|b rest'].
  - simpl in *. destruct Hl as [Hl | Hl]; [discriminate |].
    rewrite Hl. reflexivity.
  - change (noAdjacentZeros ((a :: b :: rest') ++ [v]))
      with (negb (isZero a && isZero b) && noAdjacentZeros ((b :: rest') ++ [v])).
    change (noAdjacentZeros (a :: b :: rest'))
      with (negb (isZero a && isZero b) && noAdjacentZeros (b :: rest')) in Hn.
    apply andb_true_iff in Hn. destruct Hn as [Hab Hr].
    rewrite Hab. simpl andb. apply IH; [exact Hr |].
    right. destruct Hl as [Hl | Hl]; [discriminate | exact Hl].
Qed.

Lemma tableTidy_update (v : float) (now : Time) (s : State) :
  tableTidy s -> tableTidy (updateLastSpeed v now InsertOk s).
Proof.
  intros [Hn Hl]. unfold tableTidy.
  rewrite updateLastSpeed_history, updateLastSpeed_lastRecordedSpeed.
  destruct (shouldWrite v (lastRecordedSpeed s)) eqn:Hsw.
  - rewrite map_app. simpl map. split.
    + apply noAdjacentZeros_snoc; [exact Hn |]. right.
      unfold shouldWrite in Hsw. apply orb_true_iff in Hsw.
      destruct Hsw as [Hv | Hr].
      * unfold fneq in Hv. apply negb_true_iff in Hv.
        unfold isZero at 2. rewrite Hv. apply andb_false_r.
      * fold (lastWritten (history s)). rewrite (Hl Hr).
        unfold fneq in Hr. apply negb_true_iff in Hr.
        unfold isZero at 1. rewrite Hr. reflexivity.
    + intros _. unfold lastWritten. rewrite map_app. simpl. apply last_last.
  - rewrite app_nil_r. split; assumption.
Qed.

Lemma tableTidy_updates (calls : list (float * Time * DbOutcome)) :
  forall s : State, tableTidy s -> tableTidy (updates (allOk calls) s).
Proof.
  induction calls as [|c calls IH]; intros s Hs; [exact Hs |].
  change (updates (allOk (c :: calls)) s)
    with (updates (allOk calls)
                  (updateLastSpeed (fst (fst c)) (snd (fst c)) InsertOk s)).
  apply IH, tableTidy_update, Hs.
Qed.

(** X6. As long as every insert succeeds, the agent never stores two
    consecutive rows of zero speed: started on a table that has no such
    pair, any sequence of calls of [updateLastSpeed] leaves a table that
    has none. *)
Theorem no_consecutive_zero_rows
        (table : list HistoryRow) (calls : list (float * Time * DbOutcome)) :
  noAdjacentZeros (map speed table) = true ->
  noAdjacentZeros
    (map speed (history (updates (allOk calls) (startState table)))) = true.
Proof.
  intros Ht.
  apply (tableTidy_updates calls (startState table)).
  split; [exact Ht |]. simpl. vm_compute. discriminate.
Qed.

Lemma no_consecutive_zero_rows_witness :
  noAdjacentZeros (map speed [mkRow T0 true 0 0 Version]) = true
  /\ noAdjacentZeros
       (map speed
            (history
               (updates (allOk [ (0%float, T0 + 60 * Second, ExecFails);
                                 (7%float, T0 + 120 * Second, ExecFails);
                                 (0%float, T0 + 180 * Second, PrepareFails);
                                 (0%float, T0 + 240 * Second, InsertOk) ])
                        (startState [mkRow T0 true 0 0 Version])))) = true.
Proof.
  assert (H : noAdjacentZeros (map speed [mkRow T0 true 0 0 Version]) = true)
    by reflexivity.
  split; [exact H |].
  exact (no_consecutive_zero_rows [mkRow T0 true 0 0 Version] _ H).
Defined.

(** With a failed insert in between, two zero rows can become
    neighbours: 5 stored, 0 stored, 7 lost, 0 stored. *)
Example consecutive_zero_rows_after_failure :
  map speed
      (history (updates [ (5%float, T0, InsertOk);
                          (0%float, T0 + 60 * Second, InsertOk);
                          (7%float, T0 + 120 * Second, ExecFails);
                          (0%float, T0 + 180 * Second, InsertOk) ] initState))
  = [5%float; 0%float; 0%float].
Proof. vm_compute. reflexivity. Qed.

(** ** The first row a process writes *)

Lemma freshRows_update (table : list HistoryRow) (v : float) (now : Time) (s : State) :
  freshRows table s -> freshRows table (updateLastSpeed v now InsertOk s).
Proof.
  intros (rows & Hh & Hrows). unfold freshRows.
  rewrite updateLastSpeed_history, updateLastSpeed_lastRecordedSpeed, Hh.
  destruct (shouldWrite v (lastRecordedSpeed s)) eqn:Hsw.
  - exists (rows ++ [mkRow now true 0 v Version]).
    rewrite app_assoc. split; [reflexivity |].
    destruct rows as [|r rows']; simpl; [| exact Hrows].
    unfold shouldWrite in Hsw. rewrite Hrows, orb_false_r in Hsw.
    unfold fneq in Hsw. apply negb_true_iff in Hsw. exact Hsw.
  - exists rows. rewrite app_nil_r. split; [reflexivity | exact Hrows].
Qed.

(** X12. The first row a process writes never has speed zero, as long as
    its inserts succeed: [lastRecordedSpeed] starts at 0 whatever the
    table already holds, so zero readings are skipped until a non-zero
    reading has been stored. *)
Theorem first_row_nonzero
        (table : list HistoryRow) (calls : list (float * Time * DbOutcome)) :
  exists rows,
    history (updates (allOk calls) (startState table)) = table ++ rows /\
    match rows with
    | [] => True
    | r :: _ => isZero (speed r) = false
    end.
Proof.
  assert (H : forall cs s, freshRows table s ->
                           freshRows table (updates (allOk cs) s)).
  { induction cs as [|c cs IH]; intros s Hs; [exact Hs |].
    change (updates (allOk (c :: cs)) s)
      with (updates (allOk cs)
                    (updateLastSpeed (fst (fst c)) (snd (fst c)) InsertOk s)).
    apply IH, freshRows_update, Hs. }
  destruct (H calls (startState table)) as (rows & Hh & Hrows).
  - exists []. rewrite app_nil_r. split; [reflexivity |]. vm_compute. reflexivity.
  - exists rows. split; [exact Hh |].
    destruct rows; [exact I | exact Hrows].
Qed.

(** ** Insert attempts and rows *)

(** X11. Calls of [updateLastSpeed] make at most one insert attempt
    each, and every row added to the table comes from one insert attempt;
    when every insert succeeds, the rows added are as many as the
    attempts. *)
Theorem rows_attempts_calls
        (calls : list (float * Time * DbOutcome)) (s : State) :
  (insertAttempts (updates calls s) <= insertAttempts s + List.length calls)%nat
  /\ (List.length (history (updates calls s)) + insertAttempts s
      <= List.length (history s) + insertAttempts (updates calls s))%nat
  /\ (List.length (history (updates (allOk calls) s)) + insertAttempts s
      = List.length (history s) + insertAttempts (updates (allOk calls) s))%nat.
Proof.
  revert s. induction calls as [|c calls IH]; intros s; [simpl; lia |].
  change (updates (c :: calls) s)
    with (updates calls (updateLastSpeed (fst (fst c)) (snd (fst c)) (snd c) s)).
  change (updates (allOk (c :: calls)) s)
    with (updates (allOk calls)
                  (updateLastSpeed (fst (fst c)) (snd (fst c)) InsertOk s)).
  destruct (IH (updateLastSpeed (fst (fst c)) (snd (fst c)) (snd c) s))
    as (A1 & A2 & _).
  destruct (IH (updateLastSpeed (fst (fst c)) (snd (fst c)) InsertOk s))
    as (_ & _ & A3).
  rewrite updateLastSpeed_attempts, updateLastSpeed_history, length_app in *.
  simpl List.length.
  destruct (shouldWrite (fst (fst c)) (lastRecordedSpeed s));
    destruct (snd c); simpl in *; lia.
Qed.

(** ** One request, one measurement, the next request *)

Lemma step_request_spawns (sys : Sys) (p : ProbeEnv) (tStamp tGate : Time) :
  measuring (st sys) = false ->
  probeDial p = DialOk ->
  measurementCooldown <= tGate - lastMeasurementTime (st sys) ->
  clock sys <= tGate ->
  step (LRequest p tStamp tGate) sys
  = Some (mkSys (set_measuring true (st sys)) tGate
                (pool sys ++ [mkG tGate Downloading]) (completed sys)
                (responses sys ++ [statusResponse p tStamp (st sys)])).
Proof.
  intros Hm Hdial Hcd Hclk.
  assert (HO : Online (statusResponse p tStamp (st sys)) = true)
    by (unfold statusResponse, checkConnectivity; rewrite Hdial; reflexivity).
  unfold step, handleStatus. rewrite HO. cbn [fst snd].
  apply Z.leb_le in Hclk. rewrite Hclk, ?HO.
  rewrite (gate_open_state tGate (st sys) Hm Hcd). reflexivity.
Qed.

Lemma step_request_enabled (sys : Sys) (p : ProbeEnv) (tStamp tGate : Time) :
  clock sys <= tGate ->
  exists sys',
    step (LRequest p tStamp tGate) sys = Some sys'
    /\ responses sys' = responses sys ++ [statusResponse p tStamp (st sys)]
    /\ lastMeasurementTime (st sys') = lastMeasurementTime (st sys).
Proof.
  intros Hclk. apply Z.leb_le in Hclk.
  destruct (gate_frame tGate (st sys)) as (_ & _ & F3 & _).
  unfold step, handleStatus, afterGate.
  destruct (Online (statusResponse p tStamp (st sys))) eqn:HO;
    cbn [fst snd]; rewrite ?HO, ?Hclk;
    eexists; (split; [reflexivity |]); cbn [responses st fst snd];
    split; try reflexivity. exact F3.
Qed.

Lemma step_body_single (s : State) (c t : Time) (cs : list (Time * Time))
      (rs : list Status) (e : BodyEnv) :
  step (LBody 0 e) (mkSys s c [mkG t Downloading] cs rs)
  = Some (mkSys (measurementBody e s) c [mkG t Updated] cs rs).
Proof. reflexivity. Qed.

Lemma step_done_single (s : State) (c t now : Time) (cs : list (Time * Time))
      (rs : list Status) :
  c <= now ->
  step (LDone 0 now) (mkSys s c [mkG t Updated] cs rs)
  = Some (mkSys (releaseGuard now s) now [] ((t, now) :: cs) rs).
Proof.
  intros H. apply Z.leb_le in H. cbn [step pool nth_error clock]. rewrite H.
  reflexivity.
Qed.

(** X13. A request that finds the agent idle, online and past the
    cooldown is answered with the speed known so far and starts a
    measurement; once that goroutine has finished, the next request is
    answered with the speed it measured. *)
Theorem request_measure_report
        (sys : Sys) (p p' : ProbeEnv) (e : BodyEnv)
        (tStamp tGate tEnd tStamp' tGate' : Time) :
  pool sys = [] ->
  measuring (st sys) = false ->
  probeDial p = DialOk ->
  measurementCooldown <= tGate - lastMeasurementTime (st sys) ->
  clock sys <= tGate -> tGate <= tEnd -> tEnd <= tGate' ->
  exists (sys' : Sys) (r1 r2 : Status),
    run [ LRequest p tStamp tGate; LBody 0 e; LDone 0 tEnd;
          LRequest p' tStamp' tGate' ] sys = Some sys'
    /\ responses sys' = responses sys ++ [r1; r2]
    /\ DownloadSpeedMbps r1 = lastSpeed (st sys)
    /\ DownloadSpeedMbps r2 = measuredSpeed e
    /\ lastMeasurementTime (st sys') = tEnd.
Proof.
  intros Hpool Hm Hdial Hcd Hc1 Hc2 Hc3.
  assert (Hls : lastSpeed (goroutine e tEnd (set_measuring true (st sys)))
                = measuredSpeed e).
  { unfold goroutine, releaseGuard. simpl.
    destruct (measurementBody_updates e (set_measuring true (st sys)))
      as (s0 & _ & ->).
    apply updateLastSpeed_lastSpeed. }
  cbn [run].
  rewrite (step_request_spawns sys p tStamp tGate Hm Hdial Hcd Hc1), Hpool.
  cbn [app]. rewrite step_body_single, (step_done_single _ _ _ _ _ _ Hc2).
  fold (goroutine e tEnd (set_measuring true (st sys))).
  destruct (step_request_enabled
              (mkSys (goroutine e tEnd (set_measuring true (st sys))) tEnd []
                     ((tGate, tEnd) :: completed sys)
                     (responses sys ++ [statusResponse p tStamp (st sys)]))
              p' tStamp' tGate' Hc3) as (sys' & Hstep & Hresp & Hlmt).
  rewrite Hstep.
  exists sys', (statusResponse p tStamp (st sys)),
         (statusResponse p' tStamp'
                         (goroutine e tEnd (set_measuring true (st sys)))).
  split; [reflexivity |].
  split; [rewrite Hresp; cbn [responses st]; rewrite <- app_assoc; reflexivity |].
  split; [reflexivity |].
  split; [exact Hls | rewrite Hlmt; reflexivity].
Qed.

Lemma request_measure_report_witness :
  exists (sys' : Sys) (r1 r2 : Status),
    run [ LRequest (probeOnline T0) (T0 + Second) (T0 + Second);
          LBody 0 (goodBody (T0 + Second));
          LDone 0 (T0 + 3 * Second);
          LRequest probeOffline (T0 + 5 * Second) (T0 + 5 * Second) ] initSys
    = Some sys'
    /\ responses sys' = responses initSys ++ [r1; r2]
    /\ DownloadSpeedMbps r1 = lastSpeed (st initSys)
    /\ DownloadSpeedMbps r2 = measuredSpeed (goodBody (T0 + Second))
    /\ lastMeasurementTime (st sys') = T0 + 3 * Second.
Proof.
  apply (request_measure_report initSys (probeOnline T0) probeOffline
           (goodBody (T0 + Second)) (T0 + Second) (T0 + Second)
           (T0 + 3 * Second) (T0 + 5 * Second) (T0 + 5 * Second));
    try reflexivity; vm_compute; discriminate.
Defined.
